(** * life_analysis: the time-allocation script of [life_analysis_app3.py]

    The repository is one Streamlit script.  Its logic is lines 96-143: the
    daily total, the hours left in the day, the [daily_hours <= 24] gate and,
    behind it, the lifetime hours, years and percentages per activity, their
    descending sort, the chart, the table and the free-time figure.

    The script is embedded once, over an interface [Number] of the Python
    arithmetic it uses, and run at two instances:
    - [Q_Number]: rationals, the arithmetic in which the universally
      quantified properties are stated and proved;
    - [float_Number]: IEEE-754 binary64, what CPython computes, used to
      replay the script on concrete inputs.
    In both, [/] raises [ZeroDivisionError] on a zero divisor, as Python's
    true division does for [int] and [float] operands alike.

    Static text (title, introduction, advice, footer) does not depend on the
    inputs and is left out of the rendered page. *)

From Stdlib Require Import ZArith QArith Qabs Qround List String Bool Lia Lqa.
From Stdlib Require Import Sorting.Sorted Sorting.Permutation.
From Stdlib Require Import Floats.PrimFloat Floats.SpecFloat Floats.FloatOps.
From Stdlib Require Import Numbers.Cyclic.Int63.Uint63.
Import ListNotations.

Set Implicit Arguments.

(** ** Python values and exceptions *)

Inductive exception : Type :=
| ZeroDivisionError
| KeyError (key : string)
| ValueError
| OverflowError.

Inductive result (A : Type) : Type :=
| Ok (a : A)
| Raise (e : exception).

Arguments Ok {A} a.
Arguments Raise {A} e.

Definition result_bind {A B} (r : result A) (f : A -> result B) : result B :=
  match r with
  | Ok a => f a
  | Raise e => Raise e
  end.

(** The arithmetic the script performs on its numbers.  Sliders return
    floats, the dropdown option [0] and the constants 24, 100, 365 and
    [lifespan] are ints; in every operation of the script an int operand
    acts as the number of the same value, which [of_int] gives. *)
Class Number (num : Type) : Type := {
  of_int : Z -> num;            (* an int operand, e.g. 365, 24, lifespan *)
  literal : Q -> num;           (* a decimal literal of the source, e.g. 8.5 *)
  py_add : num -> num -> num;
  py_sub : num -> num -> num;
  py_mul : num -> num -> num;
  quotient : num -> num -> num; (* x / y for a non-zero y *)
  is_zero : num -> bool;        (* y == 0, the test inside x / y *)
  py_le : num -> num -> bool;   (* x <= y *)
  py_lt : num -> num -> bool;   (* x < y, the comparison sorted() uses *)
  py_int : num -> result Z;     (* int(x): truncation towards zero *)
}.

Declare Scope py_scope.
Delimit Scope py_scope with py.
Notation "x + y" := (py_add x y) : py_scope.
Notation "x - y" := (py_sub x y) : py_scope.
Notation "x * y" := (py_mul x y) : py_scope.
Notation "x <=? y" := (py_le x y) : py_scope.
Notation "x <? y" := (py_lt x y) : py_scope.

(** [x / y]: raises on a zero divisor. *)
Definition py_truediv {num} `{Number num} (x y : num) : result num :=
  if is_zero y then Raise ZeroDivisionError else Ok (quotient x y).

(** ** Dictionaries

    A Python [dict] keeps insertion order, and the script depends on it (the
    order of [sum], of the comprehension and of the ties after sorting), so a
    dict is the list of its items in insertion order. *)

Definition dict (V : Type) : Type := list (string * V).

Definition items {V} (d : dict V) : list (string * V) := d.
Definition values {V} (d : dict V) : list V := map snd d.

(** [d[k] = v]: replaces the value of an existing key in place, appends a new
    key. *)
Fixpoint setitem {V} (d : dict V) (k : string) (v : V) : dict V :=
  match d with
  | [] => [(k, v)]
  | (k', v') :: d' =>
      if String.eqb k' k then (k', v) :: d' else (k', v') :: setitem d' k v
  end.

(** [d[k]]: raises [KeyError] on a missing key. *)
Fixpoint getitem {V} (d : dict V) (k : string) : result V :=
  match d with
  | [] => Raise (KeyError k)
  | (k', v') :: d' => if String.eqb k' k then Ok v' else getitem d' k
  end.

(** [{key(x): val(x) for x in xs}], where evaluating an item may raise: the
    items are evaluated and stored left to right, the first exception ends
    the comprehension. *)
Fixpoint dict_comprehension {A V} (f : A -> result (string * V))
    (xs : list A) (acc : dict V) : result (dict V) :=
  match xs with
  | [] => Ok acc
  | x :: xs' =>
      result_bind (f x) (fun kv =>
        dict_comprehension f xs' (setitem acc (fst kv) (snd kv)))
  end.

(** [[f(x) for x in xs]] with a fallible [f]. *)
Fixpoint list_comprehension {A B} (f : A -> result B) (xs : list A)
    : result (list B) :=
  match xs with
  | [] => Ok []
  | x :: xs' =>
      result_bind (f x) (fun y =>
        result_bind (list_comprehension f xs') (fun ys => Ok (y :: ys)))
  end.

(** ** sorted(..., key=..., reverse=True)

    Python's [sorted] is stable and compares keys with [<] only; with
    [reverse=True] the result is descending and elements with equal keys
    keep their original order.  Modelled by a stable insertion sort: an
    element moves right past exactly the elements whose key is strictly
    greater. *)
Section Sorted.
Context {A K : Type}.
Variable key : A -> K.
Variable ltb : K -> K -> bool.

Fixpoint insert_desc (x : A) (l : list A) : list A :=
  match l with
  | [] => [x]
  | y :: l' =>
      if ltb (key x) (key y) then y :: insert_desc x l' else x :: y :: l'
  end.

Definition sorted_reverse (l : list A) : list A :=
  fold_right insert_desc [] l.
End Sorted.

(** ** The rendered page

    What the script hands to Streamlit and matplotlib, in the order it does
    so.  An exception ends the run after the elements already rendered. *)
Section Page.
Variable num : Type.

(** The "Time" cell of a table row (line 136): years when [years >= 1],
    otherwise [int(years * 12)] whole months. *)
Inductive time_cell : Type :=
| Years (years : num)
| Months (months : Z).

Record table_row : Type := {
  Activity : string;
  Percentage : num;
  Time : time_cell;
}.

Inductive element : Type :=
| TotalHours (daily_hours remaining_hours : num)      (* lines 100-103 *)
| BarChart (labels : list string) (widths : list num)
    (texts : list (num * nat * num))                  (* lines 121-128 *)
| Table (rows : list table_row)                       (* lines 132-140 *)
| FreeTime (free_years : num).                        (* lines 143-145 *)

Definition script (A : Type) : Type := (list element * result A)%type.

Definition ret {A} (a : A) : script A := ([], Ok a).

Definition bind {A B} (m : script A) (f : A -> script B) : script B :=
  match m with
  | (out, Ok a) => let (out', r) := f a in (out ++ out', r)
  | (out, Raise e) => (out, Raise e)
  end.

Definition render (e : element) : script unit := ([e], Ok tt).

Definition eval {A} (r : result A) : script A := ([], r).
End Page.

Arguments Years {num} years.
Arguments Months {num} months.
Arguments TotalHours {num} daily_hours remaining_hours.
Arguments BarChart {num} labels widths texts.
Arguments Table {num} rows.
Arguments FreeTime {num} free_years.
Arguments ret {num A} a.
Arguments bind {num A B} m f.
Arguments render {num} e.
Arguments eval {num A} r.

Notation "x <- m ;; k" := (bind m (fun x => k))
  (at level 61, m at next level, right associativity).
Notation "m ;; k" := (bind m (fun _ => k))
  (at level 61, right associativity).

(** ** Reference data (lines 5-19 and 52-65) *)

Open Scope string_scope.
Open Scope list_scope.

Definition DEFAULTS : dict Q := [
  ("lifespan", 77%Q);
  ("sleep", 8.5%Q);
  ("work", 7.5%Q);
  ("commute", 0.5%Q);
  ("chores", 1.5%Q);
  ("meals", 1.5%Q);
  ("leisure", 2.0%Q);
  ("free_self", 1.0%Q);
  ("care_others", 0.25%Q);
  ("education", 0.25%Q);
  ("religion", 0.25%Q);
  ("shopping", 0.25%Q);
  ("misc", 0.25%Q)
].

Definition categories : dict string := [
  ("Sleeping", "sleep");
  ("Working", "work");
  ("Commuting", "commute");
  ("Household Chores", "chores");
  ("Eating and Drinking", "meals");
  ("Leisure", "leisure");
  ("Free SELF Time", "free_self");
  ("Caring for Others", "care_others");
  ("Education", "education");
  ("Religious and Civic Activities", "religion");
  ("Shopping/Errands", "shopping");
  ("Miscellaneous Activities", "misc")
].

(** ** The script (lines 72-145) *)

(** The variables the gated block binds, as they stand when it ends. *)
Record locals (num : Type) : Type := {
  total_hours : num;
  activities : dict num;
  hours_per_activity : dict num;
  years_per_activity : dict num;
  proportions : dict num;
  sorted_activities : list (string * num);
  sorted_labels : list string;
  sorted_percentages : list num;
  sorted_years : list num;
  free_years : num;
}.

Fixpoint enumerate_from {A} (i : nat) (l : list A) : list (nat * A) :=
  match l with
  | [] => []
  | x :: l' => (i, x) :: enumerate_from (S i) l'
  end.

Section Script.
Context {num : Type} `{Number num}.
Local Open Scope py_scope.

(** [lifespan] is the value of the lifespan slider (an int); [widget k] is
    the value the slider or dropdown with key [k] returns. *)
Variable lifespan : Z.
Variable widget : string -> num.

(** [sum(xs)]: starts from the int 0 and adds left to right. *)
Definition py_sum (xs : list num) : num := fold_left py_add xs (of_int 0).

(** Lines 72-93. *)
Definition activity_inputs : dict num :=
  fold_left (fun d ck => setitem d (snd ck) (widget (snd ck)))
    (items categories) [].

(** Lines 96-97. *)
Definition daily_hours : num := py_sum (values activity_inputs).
Definition remaining_hours : num := of_int 24 - daily_hours.

(** Lines 133-137: one table row. *)
Definition breakdown_row (r : string * num * num)
    : result (table_row num) :=
  let '(activity, proportion, years) := r in
  result_bind
    (if of_int 1 <=? years then Ok (Years years)
     else result_bind (py_int (years * of_int 12))
            (fun months => Ok (Months months)))
    (fun time =>
       Ok {| Activity := activity; Percentage := proportion;
             Time := time |}).

(** Lines 100-145.  [None]: the block behind [daily_hours <= 24] did not
    run. *)
Definition life_analysis_app : script num (option (locals num)) :=
  render (TotalHours daily_hours remaining_hours) ;;
  if daily_hours <=? of_int 24 then
    let total_hours := daily_hours * of_int 365 * of_int lifespan in
    activities <- eval (dict_comprehension
      (fun ck => result_bind (getitem activity_inputs (snd ck))
                   (fun hours => Ok (fst ck, hours)))
      (items categories) []) ;;
    hours_per_activity <- eval (dict_comprehension
      (fun ah => Ok (fst ah, snd ah * of_int 365 * of_int lifespan))
      (items activities) []) ;;
    years_per_activity <- eval (dict_comprehension
      (fun ah => result_bind (py_truediv (snd ah) (of_int 24)) (fun q =>
                 result_bind (py_truediv q (of_int 365)) (fun y =>
                 Ok (fst ah, y))))
      (items hours_per_activity) []) ;;
    proportions <- eval (dict_comprehension
      (fun ah => result_bind (py_truediv (snd ah) total_hours) (fun q =>
                 Ok (fst ah, q * of_int 100)))
      (items hours_per_activity) []) ;;
    let sorted_activities :=
      sorted_reverse (@snd string num) py_lt (items proportions) in
    let sorted_labels := map fst sorted_activities in
    let sorted_percentages := map snd sorted_activities in
    sorted_years <- eval (list_comprehension
      (fun ap => getitem years_per_activity (fst ap)) sorted_activities) ;;
    render (BarChart (rev sorted_labels) (rev sorted_percentages)
      (map (fun ipy => (fst (snd ipy) + literal (1 # 2), fst ipy,
                        snd (snd ipy)))
         (enumerate_from 0
            (combine (rev sorted_percentages) (rev sorted_years))))) ;;
    breakdown_table <- eval (list_comprehension breakdown_row
      (combine (combine sorted_labels sorted_percentages) sorted_years)) ;;
    render (Table breakdown_table) ;;
    q1 <- eval (py_truediv (remaining_hours * of_int 365 * of_int lifespan)
                  (of_int 24)) ;;
    free_years <- eval (py_truediv q1 (of_int 365)) ;;
    render (FreeTime free_years) ;;
    ret (Some {| total_hours := total_hours;
                 activities := activities;
                 hours_per_activity := hours_per_activity;
                 years_per_activity := years_per_activity;
                 proportions := proportions;
                 sorted_activities := sorted_activities;
                 sorted_labels := sorted_labels;
                 sorted_percentages := sorted_percentages;
                 sorted_years := sorted_years;
                 free_years := free_years |})
  else ret None.
End Script.

(** ** The two arithmetics *)

(** Exact rationals.  [<] is the negation of [>=]; [int(x)] truncates
    towards zero and never fails. *)
#[export] Instance Q_Number : Number Q := {|
  of_int := inject_Z;
  literal := fun q => q;
  py_add := Qplus;
  py_sub := Qminus;
  py_mul := Qmult;
  quotient := Qdiv;
  is_zero := fun y => Qeq_bool y 0;
  py_le := Qle_bool;
  py_lt := fun x y => negb (Qle_bool y x);
  py_int := fun x => Ok (Z.quot (Qnum x) (Zpos (Qden x)));
|}.

(** [int(x)] of a binary64 value, from its sign, mantissa and exponent. *)
Definition float_int (x : float) : result Z :=
  match Prim2SF x with
  | S754_zero _ => Ok 0%Z
  | S754_finite s m e =>
      let v := match e with
               | Zneg k => Z.shiftr (Zpos m) (Zpos k)
               | _ => Z.shiftl (Zpos m) e
               end in
      Ok (if s then (- v)%Z else v)
  | S754_infinity _ => Raise OverflowError
  | S754_nan => Raise ValueError
  end.

(** An int operand as a binary64 value; correctly rounded, and exact for
    the ints the script uses (0, 1, 12, 24, 100, 365 and a slider value). *)
Definition float_of_int (z : Z) : float :=
  match z with
  | Z0 => PrimFloat.zero
  | Zpos _ => PrimFloat.of_uint63 (Uint63.of_Z z)
  | Zneg p => PrimFloat.opp (PrimFloat.of_uint63 (Uint63.of_Z (Zpos p)))
  end.

(** Binary64.  A literal of the source with a short decimal expansion is the
    correctly rounded quotient of its numerator and denominator. *)
#[export] Instance float_Number : Number float := {|
  of_int := float_of_int;
  literal := fun q =>
    PrimFloat.div (float_of_int (Qnum q)) (float_of_int (Zpos (Qden q)));
  py_add := PrimFloat.add;
  py_sub := PrimFloat.sub;
  py_mul := PrimFloat.mul;
  quotient := PrimFloat.div;
  is_zero := fun y => PrimFloat.eqb y PrimFloat.zero;
  py_le := PrimFloat.leb;
  py_lt := PrimFloat.ltb;
  py_int := float_int;
|}.

(** ** Inputs *)

(** Widget values given by a table; a key the table does not list reads 0.
    [readings DEFAULTS] is the state right after "Reset to Defaults". *)
Definition readings {num} `{Number num} (table : dict Q) (k : string) : num :=
  match getitem table k with
  | Ok q => literal q
  | Raise _ => of_int 0
  end.

(** Every slider and dropdown at 0. *)
Definition all_zero {num} `{Number num} (k : string) : num := of_int 0.

(** ** The session state and the widgets (lines 30-35 and 72-93)

    [st.session_state] is used as a dict from widget keys to values.  What
    Streamlit does with the arguments of a widget is not part of the
    script; a widget is modelled by the call the script makes. *)

(** The categories that get a dropdown (line 76) and its options (line 80;
    the first option is the int 0). *)
Definition dropdown_categories : list string :=
  ["Shopping/Errands"; "Education"; "Religion"; "Miscellaneous Activities"].

Definition dropdown_options : list Q := [0; 0.25; 0.5; 0.75; 1.0].

Section Widgets.
Variable num : Type.
Context `{Number num}.

(** [st.session_state.get(key, default)]. *)
Definition session_get (session_state : dict num) (key : string)
    (default : num) : num :=
  match getitem session_state key with
  | Ok v => v
  | Raise _ => default
  end.

(** Lines 34-35: [for key in DEFAULTS: st.session_state[key] =
    DEFAULTS[key]]. *)
Definition reset_to_defaults (session_state : dict num)
    : result (dict num) :=
  fold_left
    (fun state key =>
       result_bind state (fun s =>
       result_bind (getitem DEFAULTS key) (fun v =>
       Ok (setitem s key (literal v)))))
    (map fst DEFAULTS) (Ok session_state).

(** Line 33: the loop runs when the button was clicked. *)
Definition reset_button (clicked : bool) (session_state : dict num)
    : result (dict num) :=
  if clicked then reset_to_defaults session_state else Ok session_state.

(** The widget call of lines 76-93. *)
Inductive widget_call : Type :=
| Selectbox (options : list num) (index : Z)
| Slider (min_value max_value value step : num).

Definition activity_widget (session_state : dict num)
    (category key : string) : result widget_call :=
  if existsb (String.eqb category) dropdown_categories then
    result_bind (getitem DEFAULTS key) (fun d =>
    result_bind (py_truediv (literal d) (literal 0.25)) (fun q =>
    result_bind (py_int q) (fun index =>
    Ok (Selectbox (map literal dropdown_options) index))))
  else
    result_bind (getitem DEFAULTS key) (fun d =>
    Ok (Slider (literal 0.0) (literal 24.0)
          (session_get session_state key (literal d)) (literal 0.25))).
End Widgets.

Arguments session_get {num} session_state key default.
Arguments reset_to_defaults {num _} session_state.
Arguments reset_button {num _} clicked session_state.
Arguments Selectbox {num} options index.
Arguments Slider {num} min_value max_value value step.
Arguments activity_widget {num _} session_state category key.

Unset Implicit Arguments.

(** * Properties *)

(** ** Results and dictionaries *)

Lemma setitem_fresh {V} (d : dict V) (k : string) (v : V) :
  ~ In k (map fst d) -> setitem d k v = d ++ [(k, v)].
Proof.
  induction d as [|[k' v'] d IH]; simpl; intros Hk; [reflexivity|].
  destruct (String.eqb_spec k' k) as [->|_].
  - exfalso. apply Hk. now left.
  - rewrite IH; [reflexivity|]. intros Hin. apply Hk. now right.
Qed.

Lemma dict_comprehension_map {A V} (f : A -> result (string * V))
    (g : A -> string * V) (xs : list A) (acc : dict V) :
  (forall x, In x xs -> f x = Ok (g x)) ->
  NoDup (map fst acc ++ map (fun x => fst (g x)) xs) ->
  dict_comprehension f xs acc = Ok (acc ++ map g xs).
Proof.
  revert acc. induction xs as [|x xs IH]; simpl; intros acc Hf Hnd.
  - now rewrite app_nil_r.
  - rewrite (Hf x (or_introl eq_refl)). simpl.
    rewrite setitem_fresh.
    + rewrite IH.
      * rewrite <- app_assoc. destruct (g x). reflexivity.
      * intros y Hy. apply Hf. now right.
      * rewrite map_app, <- app_assoc. exact Hnd.
    + intros Hin. apply NoDup_remove_2 in Hnd. apply Hnd.
      apply in_or_app. now left.
Qed.

Lemma dict_comprehension_fresh {A V} (f : A -> result (string * V))
    (g : A -> string * V) (xs : list A) :
  (forall x, In x xs -> f x = Ok (g x)) ->
  NoDup (map (fun x => fst (g x)) xs) ->
  dict_comprehension f xs [] = Ok (map g xs).
Proof.
  intros Hf Hnd. now rewrite (dict_comprehension_map f g xs [] Hf Hnd).
Qed.

Lemma getitem_In {V} (d : dict V) (k : string) (v : V) :
  NoDup (map fst d) -> In (k, v) d -> getitem d k = Ok v.
Proof.
  induction d as [|[k' v'] d IH]; simpl; intros Hnd Hin; [contradiction|].
  inversion Hnd as [|? ? Hk Hnd']; subst.
  destruct Hin as [Heq|Hin].
  - inversion Heq; subst. now rewrite String.eqb_refl.
  - destruct (String.eqb_spec k' k) as [->|_].
    + exfalso. apply Hk. apply (in_map fst) in Hin. exact Hin.
    + now apply IH.
Qed.

Lemma getitem_key {V} (d : dict V) (k : string) :
  In k (map fst d) -> exists v, getitem d k = Ok v.
Proof.
  induction d as [|[k' v'] d IH]; simpl; intros Hin; [contradiction|].
  destruct (String.eqb_spec k' k) as [->|Hne].
  - now exists v'.
  - destruct Hin as [Heq|Hin]; [contradiction|]. now apply IH.
Qed.

Lemma list_comprehension_total {A B} (f : A -> result B) (xs : list A) :
  (forall x, In x xs -> exists y, f x = Ok y) ->
  exists ys, list_comprehension f xs = Ok ys /\ List.length ys = List.length xs.
Proof.
  induction xs as [|x xs IH]; simpl; intros Hf.
  - now exists [].
  - destruct (Hf x (or_introl eq_refl)) as [y Hy].
    destruct IH as [ys [Hys Hlen]]; [intros z Hz; apply Hf; now right|].
    exists (y :: ys). rewrite Hy, Hys. simpl. now rewrite Hlen.
Qed.

(** ** The descending stable sort *)

Section SortedFacts.
Context {A K : Type}.
Variable key : A -> K.
Variable ltb : K -> K -> bool.

Lemma insert_desc_perm (x : A) (l : list A) :
  Permutation (insert_desc key ltb x l) (x :: l).
Proof.
  induction l as [|y l IH]; simpl; [reflexivity|].
  destruct (ltb (key x) (key y)); [|reflexivity].
  rewrite IH. apply perm_swap.
Qed.

Lemma sorted_reverse_perm (l : list A) :
  Permutation (sorted_reverse key ltb l) l.
Proof.
  induction l as [|x l IH]; simpl; [reflexivity|].
  rewrite insert_desc_perm. now constructor.
Qed.

(** [x] does not come after [y] in descending order: [key x < key y]
    is false. *)
Definition not_below (x y : A) : Prop := ltb (key x) (key y) = false.

Section Order.
Hypothesis ltb_asym : forall a b, ltb a b = true -> ltb b a = false.
Hypothesis ltb_negtrans :
  forall a b c, ltb a b = false -> ltb b c = false -> ltb a c = false.

Lemma insert_desc_sorted (x : A) (l : list A) :
  StronglySorted not_below l ->
  StronglySorted not_below (insert_desc key ltb x l).
Proof.
  induction 1 as [|y l Hs IH Hy]; simpl.
  - repeat constructor.
  - destruct (ltb (key x) (key y)) eqn:Hxy.
    + constructor; [exact IH|].
      apply (Permutation_Forall (Permutation_sym (insert_desc_perm x l))).
      constructor; [|exact Hy]. now apply ltb_asym.
    + constructor; [now constructor|].
      constructor; [exact Hxy|].
      eapply Forall_impl; [|exact Hy].
      intros z Hz. now apply ltb_negtrans with (key y).
Qed.

Lemma sorted_reverse_sorted (l : list A) :
  StronglySorted not_below (sorted_reverse key ltb l).
Proof.
  induction l as [|x l IH]; simpl; [constructor|].
  now apply insert_desc_sorted.
Qed.
End Order.

(** Stability: for a class [same] of keys that [ltb] separates from every
    key above it, the elements of the class come out in the order they
    went in. *)
Section Stable.
Variable same : K -> bool.
Hypothesis same_ltb :
  forall a b, same a = true -> ltb a b = true -> same b = false.

Lemma insert_desc_filter (x : A) (l : list A) :
  filter (fun a => same (key a)) (insert_desc key ltb x l)
  = filter (fun a => same (key a)) (x :: l).
Proof.
  induction l as [|y l IH]; [reflexivity|].
  simpl insert_desc. destruct (ltb (key x) (key y)) eqn:Hxy;
    [|reflexivity].
  simpl in *. rewrite IH.
  destruct (same (key x)) eqn:Hx; [|reflexivity].
  now rewrite (same_ltb _ _ Hx Hxy).
Qed.

Lemma sorted_reverse_filter (l : list A) :
  filter (fun a => same (key a)) (sorted_reverse key ltb l)
  = filter (fun a => same (key a)) l.
Proof.
  induction l as [|x l IH]; [reflexivity|].
  simpl sorted_reverse. rewrite insert_desc_filter. simpl.
  now rewrite IH.
Qed.
End Stable.
End SortedFacts.

(** ** The script monad *)

Lemma bind_eval_Ok {num A B} (a : A) (f : A -> script num B) :
  bind (eval (Ok a)) f = f a.
Proof. unfold bind, eval. now destruct (f a). Qed.

Lemma bind_eval_Raise {num A B} (e : exception) (f : A -> script num B) :
  bind (eval (Raise e)) f = ([], Raise e).
Proof. reflexivity. Qed.

Lemma bind_render {num B} (e : element num) (f : unit -> script num B) :
  bind (render e) f = let (out, r) := f tt in (e :: out, r).
Proof. reflexivity. Qed.

(** ** What a run of the script computes

    Facts that hold in any arithmetic: they only use how the script is put
    together, and the side conditions name what the arithmetic must
    provide. *)

Lemma categories_NoDup : NoDup (map fst categories).
Proof.
  rewrite <- (eq_refl : nodup string_dec (map fst categories)
                        = map fst categories).
  apply NoDup_nodup.
Qed.

Section Run.
Context {num : Type} `{Number num}.
Local Open Scope py_scope.
Variable lifespan : Z.
Variable widget : string -> num.

Let daily := daily_hours widget.
Let total := daily * of_int 365 * of_int lifespan.

(** The dictionaries of the block in closed form, in catalog order. *)
Definition activities_closed : dict num :=
  map (fun ck => (fst ck, widget (snd ck))) categories.
Definition hours_closed : dict num :=
  map (fun ah => (fst ah, snd ah * of_int 365 * of_int lifespan))
    activities_closed.
Definition years_closed : dict num :=
  map (fun ah =>
         (fst ah, quotient (quotient (snd ah) (of_int 24)) (of_int 365)))
    hours_closed.
Definition proportions_closed : dict num :=
  map (fun ah => (fst ah, quotient (snd ah) total * of_int 100))
    hours_closed.

Lemma activity_inputs_closed :
  activity_inputs widget
  = map (fun ck => (snd ck, widget (snd ck))) categories.
Proof. reflexivity. Qed.

Lemma daily_hours_closed :
  daily_hours widget = py_sum (map snd activities_closed).
Proof. reflexivity. Qed.

Lemma closed_keys :
  map fst activities_closed = map fst categories
  /\ map fst hours_closed = map fst categories
  /\ map fst years_closed = map fst categories
  /\ map fst proportions_closed = map fst categories.
Proof. repeat split; reflexivity. Qed.

Lemma activities_run :
  dict_comprehension
    (fun ck => result_bind (getitem (activity_inputs widget) (snd ck))
                 (fun hours => Ok (fst ck, hours)))
    (items categories) []
  = Ok activities_closed.
Proof. reflexivity. Qed.

Lemma hours_run :
  dict_comprehension
    (fun ah => Ok (fst ah, snd ah * of_int 365 * of_int lifespan))
    (items activities_closed) []
  = Ok hours_closed.
Proof. reflexivity. Qed.

Section Divisors.
Hypothesis H24 : is_zero (of_int 24) = false.
Hypothesis H365 : is_zero (of_int 365) = false.

Lemma years_run :
  dict_comprehension
    (fun ah => result_bind (py_truediv (snd ah) (of_int 24)) (fun q =>
               result_bind (py_truediv q (of_int 365)) (fun y =>
               Ok (fst ah, y))))
    (items hours_closed) []
  = Ok years_closed.
Proof.
  apply (dict_comprehension_fresh _
    (fun ah => (fst ah,
                quotient (quotient (snd ah) (of_int 24)) (of_int 365)))).
  - intros x _. unfold py_truediv. now rewrite H24, H365.
  - exact categories_NoDup.
Qed.

(** A zero [total_hours]: the first division of line 111 raises, after
    the banner of line 100 and before anything else is rendered. *)
Lemma run_zero_total :
  (daily <=? of_int 24) = true -> is_zero total = true ->
  life_analysis_app lifespan widget
  = ([TotalHours daily (remaining_hours widget)],
     Raise ZeroDivisionError).
Proof.
  intros Hle Hz. unfold life_analysis_app. fold daily. rewrite Hle.
  rewrite bind_render. cbv beta.
  rewrite activities_run, bind_eval_Ok.
  rewrite hours_run, bind_eval_Ok.
  rewrite years_run, bind_eval_Ok.
  fold total.
  replace (dict_comprehension _ (items hours_closed) [])
    with (@Raise (dict num) ZeroDivisionError).
  - reflexivity.
  - unfold hours_closed, activities_closed, categories, items.
    simpl. unfold py_truediv. now rewrite Hz.
Qed.

(** A non-zero [total_hours] inside the budget: the block runs to its
    end and binds the closed forms. *)
Definition sorted_closed : list (string * num) :=
  sorted_reverse (@snd string num) py_lt proportions_closed.

Definition free_years_closed : num :=
  quotient
    (quotient (remaining_hours widget * of_int 365 * of_int lifespan)
       (of_int 24))
    (of_int 365).

Definition locals_closed (ys : list num) : locals num :=
  {| total_hours := total;
     activities := activities_closed;
     hours_per_activity := hours_closed;
     years_per_activity := years_closed;
     proportions := proportions_closed;
     sorted_activities := sorted_closed;
     sorted_labels := map fst sorted_closed;
     sorted_percentages := map snd sorted_closed;
     sorted_years := ys;
     free_years := free_years_closed |}.

Lemma proportions_run :
  is_zero total = false ->
  dict_comprehension
    (fun ah => result_bind (py_truediv (snd ah) total) (fun q =>
               Ok (fst ah, q * of_int 100)))
    (items hours_closed) []
  = Ok proportions_closed.
Proof.
  intros Ht.
  apply (dict_comprehension_fresh _
    (fun ah => (fst ah, quotient (snd ah) total * of_int 100))).
  - intros x _. unfold py_truediv. now rewrite Ht.
  - exact categories_NoDup.
Qed.

Lemma sorted_years_run :
  exists ys,
    list_comprehension (fun ap => getitem years_closed (fst ap))
      sorted_closed = Ok ys
    /\ List.length ys = List.length categories.
Proof.
  destruct (list_comprehension_total
              (fun ap : string * num => getitem years_closed (fst ap))
              sorted_closed) as [ys [Hys Hlen]].
  - intros ap Hin. apply getitem_key.
    apply (Permutation_in _ (sorted_reverse_perm _ _ _)) in Hin.
    apply (in_map fst) in Hin. exact Hin.
  - exists ys. split; [exact Hys|]. rewrite Hlen.
    unfold sorted_closed.
    rewrite (Permutation_length (sorted_reverse_perm _ _ _)).
    reflexivity.
Qed.

Lemma breakdown_table_run (rows : list (string * num * num)) :
  (forall x : num, exists z, py_int x = Ok z) ->
  exists table,
    list_comprehension breakdown_row rows = Ok table
    /\ List.length table = List.length rows.
Proof.
  intros Hint. apply list_comprehension_total.
  intros [[activity proportion] years] _. unfold breakdown_row.
  destruct (of_int 1 <=? years); simpl; [eauto|].
  destruct (Hint (years * of_int 12)) as [z ->]. simpl. eauto.
Qed.

Lemma run_block :
  (daily <=? of_int 24) = true -> is_zero total = false ->
  (forall x : num, exists z, py_int x = Ok z) ->
  exists ys table texts,
    list_comprehension (fun ap => getitem years_closed (fst ap))
      sorted_closed = Ok ys
    /\ life_analysis_app lifespan widget
       = ([TotalHours daily (remaining_hours widget);
           BarChart (rev (map fst sorted_closed))
             (rev (map snd sorted_closed)) texts;
           Table table;
           FreeTime free_years_closed],
          Ok (Some (locals_closed ys))).
Proof.
  intros Hle Ht Hint.
  destruct sorted_years_run as [ys [Hys _]].
  destruct (breakdown_table_run
              (combine (combine (map fst sorted_closed)
                          (map snd sorted_closed)) ys) Hint)
    as [table [Htable _]].
  exists ys, table. eexists. split; [exact Hys|].
  unfold life_analysis_app. fold daily. rewrite Hle.
  rewrite bind_render. cbv beta.
  rewrite activities_run, bind_eval_Ok.
  rewrite hours_run, bind_eval_Ok.
  rewrite years_run, bind_eval_Ok.
  fold total. rewrite (proportions_run Ht), bind_eval_Ok.
  unfold items. fold sorted_closed. rewrite Hys, bind_eval_Ok.
  rewrite bind_render. cbv beta.
  rewrite Htable, bind_eval_Ok.
  rewrite bind_render. cbv beta.
  unfold py_truediv at 1. rewrite H24, bind_eval_Ok.
  unfold py_truediv at 1. rewrite H365, bind_eval_Ok.
  rewrite bind_render. cbv beta.
  reflexivity.
Qed.
End Divisors.

(** Behind the gate: nothing of the block runs. *)
Lemma run_over_budget :
  (daily <=? of_int 24) = false ->
  life_analysis_app lifespan widget
  = ([TotalHours daily (remaining_hours widget)], Ok None).
Proof.
  intros Hle. unfold life_analysis_app. fold daily. now rewrite Hle.
Qed.
End Run.

Arguments activity_inputs : simpl never.
Arguments daily_hours : simpl never.
Arguments remaining_hours : simpl never.
Arguments life_analysis_app : simpl never.
Arguments activities_closed : simpl never.
Arguments hours_closed : simpl never.
Arguments years_closed : simpl never.
Arguments proportions_closed : simpl never.
Arguments sorted_closed : simpl never.
Arguments free_years_closed : simpl never.

(** Projects the fields of [locals_closed] and nothing else. *)
Ltac locals_fields :=
  cbn [locals_closed total_hours activities hours_per_activity
       years_per_activity proportions sorted_activities sorted_labels
       sorted_percentages sorted_years free_years] in *.

(** ** Exact arithmetic *)

Open Scope Q_scope.

Ltac q_ops :=
  change (@py_add Q Q_Number) with Qplus in *;
  change (@py_sub Q Q_Number) with Qminus in *;
  change (@py_mul Q Q_Number) with Qmult in *;
  change (@quotient Q Q_Number) with Qdiv in *;
  change (@py_le Q Q_Number) with Qle_bool in *;
  change (@py_lt Q Q_Number) with (fun x y : Q => negb (Qle_bool y x)) in *;
  change (@is_zero Q Q_Number) with (fun y : Q => Qeq_bool y 0) in *;
  change (@of_int Q Q_Number) with inject_Z in *;
  change (inject_Z 0) with 0 in *;
  change (inject_Z 24) with 24 in *;
  change (inject_Z 100) with 100 in *;
  change (inject_Z 365) with 365 in *;
  cbv beta in *.

(** Closed side conditions on concrete inputs. *)
Ltac by_computation := vm_compute; first [reflexivity | discriminate].

Lemma Q_is_zero_false (x : Q) : ~ x == 0 -> is_zero x = false.
Proof.
  intros Hx. q_ops. destruct (Qeq_bool x 0) eqn:E; [|reflexivity].
  apply Qeq_bool_iff in E. contradiction.
Qed.

Lemma Q_is_zero_true (x : Q) : x == 0 -> is_zero x = true.
Proof. intros Hx. q_ops. now apply Qeq_bool_iff. Qed.

Lemma Q_le_true (x y : Q) : x <= y -> (x <=? y)%py = true.
Proof. intros Hxy. q_ops. now apply Qle_bool_iff. Qed.

Lemma Q_le_false (x y : Q) : y < x -> (x <=? y)%py = false.
Proof.
  intros Hxy. q_ops. destruct (Qle_bool x y) eqn:E; [|reflexivity].
  apply Qle_bool_iff in E. exfalso. lra.
Qed.

Lemma Q_lt_false (x y : Q) : (x <? y)%py = false <-> y <= x.
Proof.
  q_ops. rewrite negb_false_iff. apply Qle_bool_iff.
Qed.

Lemma Q_lt_true (x y : Q) : (x <? y)%py = true <-> x < y.
Proof.
  q_ops. rewrite negb_true_iff. split; intros Hxy.
  - apply Qnot_le_lt. intros Hle. apply Qle_bool_iff in Hle. congruence.
  - destruct (Qle_bool y x) eqn:E; [|reflexivity].
    apply Qle_bool_iff in E. exfalso. lra.
Qed.

Lemma Q_py_int_total (x : Q) : exists z, py_int x = Ok z.
Proof. cbn [py_int Q_Number]. eauto. Qed.

(** [sum(xs)] against a right fold. *)
Definition Qsum (xs : list Q) : Q := fold_right Qplus 0 xs.

Lemma fold_left_Qplus (xs : list Q) (a : Q) :
  fold_left Qplus xs a == a + Qsum xs.
Proof.
  revert a. induction xs as [|x xs IH]; simpl; intros a; [ring|].
  rewrite IH. ring.
Qed.

Lemma py_sum_Qsum (xs : list Q) : py_sum xs == Qsum xs.
Proof.
  unfold py_sum. q_ops. rewrite fold_left_Qplus. ring.
Qed.

Lemma Qsum_map_linear (f : Q -> Q) (k : Q) (xs : list Q) :
  (forall x, f x == x * k) -> Qsum (map f xs) == Qsum xs * k.
Proof.
  intros Hf. induction xs as [|x xs IH]; simpl; [ring|].
  rewrite IH, Hf. ring.
Qed.

Lemma inject_Z_pos (z : Z) : (0 < z)%Z -> 0 < inject_Z z.
Proof. intros Hz. change 0 with (inject_Z 0). now rewrite <- Zlt_Qlt. Qed.

Lemma inject_Z_nonzero (z : Z) : z <> 0%Z -> ~ inject_Z z == 0.
Proof.
  intros Hz He. apply Hz. unfold Qeq in He. simpl in He. lia.
Qed.

Lemma pos_nonzero (z : Z) : (0 < z)%Z -> z <> 0%Z.
Proof. lia. Qed.

Lemma total_hours_nonzero (d : Q) (lifespan : Z) :
  lifespan <> 0%Z -> ~ d == 0 -> ~ d * 365 * inject_Z lifespan == 0.
Proof.
  intros HL Hd Ht. pose proof (inject_Z_nonzero _ HL) as HLq.
  assert (Hp : d * (365 * inject_Z lifespan) == 0) by (rewrite <- Ht; ring).
  apply Qmult_integral in Hp. destruct Hp as [Hp|Hp]; [tauto|].
  apply Qmult_integral in Hp. destruct Hp as [Hp|Hp]; [discriminate|tauto].
Qed.

Section ExactRun.
Variable lifespan : Z.
Variable widget : string -> Q.

Lemma daily_hours_Qsum :
  daily_hours widget == Qsum (map (fun ck => widget (snd ck)) categories).
Proof.
  unfold daily_hours. rewrite py_sum_Qsum.
  rewrite activity_inputs_closed. unfold values. rewrite map_map.
  reflexivity.
Qed.

(** The block runs to its end on a non-zero total inside the budget. *)
Lemma exact_run_block :
  lifespan <> 0%Z ->
  ~ daily_hours widget == 0 -> daily_hours widget <= 24 ->
  exists ys table texts,
    list_comprehension
      (fun ap => getitem (years_closed lifespan widget) (fst ap))
      (sorted_closed lifespan widget) = Ok ys
    /\ life_analysis_app lifespan widget
       = ([TotalHours (daily_hours widget) (remaining_hours widget);
           BarChart (rev (map fst (sorted_closed lifespan widget)))
             (rev (map snd (sorted_closed lifespan widget))) texts;
           Table table;
           FreeTime (free_years_closed lifespan widget)],
          Ok (Some (locals_closed lifespan widget ys))).
Proof.
  intros HL Hd Hle.
  apply run_block; try reflexivity.
  - now apply Q_le_true.
  - apply Q_is_zero_false. q_ops. now apply total_hours_nonzero.
  - exact Q_py_int_total.
Qed.

(** A zero total raises at line 111. *)
Lemma exact_run_zero :
  daily_hours widget == 0 ->
  life_analysis_app lifespan widget
  = ([TotalHours (daily_hours widget) (remaining_hours widget)],
     Raise ZeroDivisionError).
Proof.
  intros Hd. apply run_zero_total; try reflexivity.
  - apply Q_le_true. q_ops. rewrite Hd. discriminate.
  - apply Q_is_zero_true. q_ops. revert Hd.
    generalize (daily_hours widget). intros d Hd. rewrite Hd. ring.
Qed.

(** Above the budget only the banner is rendered. *)
Lemma exact_run_over :
  24 < daily_hours widget ->
  life_analysis_app lifespan widget
  = ([TotalHours (daily_hours widget) (remaining_hours widget)], Ok None).
Proof.
  intros Hd. apply run_over_budget. now apply Q_le_false.
Qed.
End ExactRun.

(** Sleeping at 24 hours and Working at 1 hour: 25 hours in the day. *)
Definition over_budget : dict Q := [("sleep", 24); ("work", 1)].

(** ** The gate of line 106 *)

(** C5.  When the daily total exceeds 24, the run renders the banner with
    the total and the remaining hours and nothing else (no chart, no table,
    no free-time figure), binds none of the block's variables, and the
    remaining hours are 24 minus the total: -1 for a total of 25. *)
Theorem over_budget_renders_totals_only
    (lifespan : Z) (widget : string -> Q) :
  24 < daily_hours widget ->
  life_analysis_app lifespan widget
  = ([TotalHours (daily_hours widget) (remaining_hours widget)], Ok None)
  /\ remaining_hours widget == 24 - daily_hours widget
  /\ (daily_hours widget == 25 -> remaining_hours widget == -1).
Proof.
  intros Hover. split; [now apply exact_run_over|].
  unfold remaining_hours. q_ops.
  split; [reflexivity|]. intros ->. reflexivity.
Qed.

Lemma over_budget_renders_totals_only_witness :
  let widget : string -> Q := readings over_budget in
  daily_hours widget == 25
  /\ life_analysis_app 77 widget
     = ([TotalHours (daily_hours widget) (remaining_hours widget)], Ok None)
  /\ remaining_hours widget == -1.
Proof.
  intros widget.
  assert (Hd : daily_hours widget == 25) by by_computation.
  destruct (over_budget_renders_totals_only 77 widget)
    as [Hrun [_ Hrem]].
  - by_computation.
  - split; [exact Hd|]. split; [exact Hrun|]. exact (Hrem Hd).
Defined.

(** ** Free time *)

Lemma free_years_closed_nonneg (lifespan : Z) (widget : string -> Q) :
  (0 < lifespan)%Z -> daily_hours widget <= 24 ->
  0 <= remaining_hours widget /\ 0 <= free_years_closed lifespan widget.
Proof.
  intros HL Hle. pose proof (inject_Z_pos _ HL) as HLq.
  unfold free_years_closed, remaining_hours. q_ops.
  revert Hle. generalize (daily_hours widget). intros d Hle.
  assert (Hrem : 0 <= 24 - d) by lra.
  split; [exact Hrem|].
  apply Qle_shift_div_l; [reflexivity|]. rewrite Qmult_0_l.
  apply Qle_shift_div_l; [reflexivity|]. rewrite Qmult_0_l.
  apply Qmult_le_0_compat; [|lra].
  apply Qmult_le_0_compat; [exact Hrem|discriminate].
Qed.

(** C9.  With a positive lifespan, every free-time figure the run renders
    is non-negative and is rendered with non-negative remaining hours; and
    when the block behind the gate runs to its end, the free years it binds
    are rendered and non-negative. *)
Theorem free_time_never_negative
    (lifespan : Z) (widget : string -> Q)
    (page : list (element Q)) (r : result (option (locals Q))) :
  (0 < lifespan)%Z ->
  life_analysis_app lifespan widget = (page, r) ->
  (forall f, In (FreeTime f) page ->
     0 <= remaining_hours widget /\ 0 <= f)
  /\ (forall b, r = Ok (Some b) ->
        In (FreeTime (free_years b)) page
        /\ 0 <= remaining_hours widget /\ 0 <= free_years b).
Proof.
  intros HL Hrun.
  assert (Hpage : page = fst (life_analysis_app lifespan widget))
    by now rewrite Hrun.
  assert (Hr : r = snd (life_analysis_app lifespan widget))
    by now rewrite Hrun.
  clear Hrun.
  destruct (Qlt_le_dec 24 (daily_hours widget)) as [Hover|Hle].
  - rewrite (exact_run_over lifespan widget Hover) in Hpage, Hr.
    cbn [fst snd] in Hpage, Hr. subst page r. split.
    + intros f [Hf|[]]. discriminate.
    + intros b Hb. discriminate.
  - destruct (Qeq_dec (daily_hours widget) 0) as [Hz|Hnz].
    + rewrite (exact_run_zero lifespan widget Hz) in Hpage, Hr.
      cbn [fst snd] in Hpage, Hr. subst page r. split.
      * intros f [Hf|[]]. discriminate.
      * intros b Hb. discriminate.
    + destruct (exact_run_block lifespan widget (pos_nonzero _ HL) Hnz Hle)
        as [ys [table [texts [_ Hblock]]]].
      rewrite Hblock in Hpage, Hr. cbn [fst snd] in Hpage, Hr.
      subst page r.
      pose proof (free_years_closed_nonneg lifespan widget HL Hle) as Hnn.
      split.
      * intros f [Hf|[Hf|[Hf|[Hf|[]]]]]; try discriminate.
        injection Hf as <-. exact Hnn.
      * intros b Hb. injection Hb as <-. locals_fields.
        split; [|exact Hnn]. right. right. right. now left.
Qed.

Lemma free_time_never_negative_witness :
  let widget : string -> Q := readings DEFAULTS in
  exists page b,
    life_analysis_app 77 widget = (page, Ok (Some b))
    /\ In (FreeTime (free_years b)) page
    /\ 0 <= remaining_hours widget
    /\ 0 <= free_years b.
Proof.
  intros widget.
  assert (Hrun : exists page b,
            life_analysis_app 77 widget = (page, Ok (Some b))).
  { vm_compute. eexists. eexists. reflexivity. }
  destruct Hrun as [page [b Hrun]]. exists page, b.
  split; [exact Hrun|].
  refine (proj2 (free_time_never_negative 77 widget page
                   (Ok (Some b)) _ Hrun) b eq_refl).
  reflexivity.
Defined.

(** ** Percentages, lifetime hours and years *)

Section ExactBlock.
Variable lifespan : Z.
Variable widget : string -> Q.
Hypothesis lifespan_nonzero : lifespan <> 0%Z.
Hypothesis daily_nonzero : ~ daily_hours widget == 0.

Lemma Qsum_hours_closed :
  Qsum (values (hours_closed lifespan widget))
  == daily_hours widget * 365 * inject_Z lifespan.
Proof.
  rewrite (daily_hours_closed widget), py_sum_Qsum.
  unfold hours_closed, values. rewrite map_map. cbn [snd].
  rewrite <- (map_map snd
                (fun h : Q => (h * of_int 365 * of_int lifespan)%py)).
  rewrite (Qsum_map_linear _ (365 * inject_Z lifespan)).
  - ring.
  - intros x. q_ops. ring.
Qed.

End ExactBlock.





(** ** The sort of the percentages *)

Lemma StronglySorted_weaken {A} (R S : A -> A -> Prop) (l : list A) :
  (forall x y, R x y -> S x y) -> StronglySorted R l -> StronglySorted S l.
Proof.
  intros HRS. induction 1 as [|x l _ IH Hx]; constructor; [exact IH|].
  eapply Forall_impl; [|exact Hx]. intros y. apply HRS.
Qed.

(** Sorting two lists that agree position by position, under a relation
    the comparison of keys cannot tell apart, gives lists that agree
    position by position. *)
Section SortedCongruence.
Context {A K : Type}.
Variable key : A -> K.
Variable ltb : K -> K -> bool.
Variable E : A -> A -> Prop.
Hypothesis ltb_E : forall x x' y y',
  E x x' -> E y y' -> ltb (key x) (key y) = ltb (key x') (key y').

Lemma insert_desc_Forall2 (x x' : A) (l l' : list A) :
  E x x' -> Forall2 E l l' ->
  Forall2 E (insert_desc key ltb x l) (insert_desc key ltb x' l').
Proof.
  intros Hx. induction 1 as [|y y' l l' Hy Hl IH]; simpl.
  - now repeat constructor.
  - rewrite (ltb_E _ _ _ _ Hx Hy). destruct (ltb (key x') (key y')).
    + now constructor.
    + constructor; [exact Hx|]. now constructor.
Qed.

Lemma sorted_reverse_Forall2 (l l' : list A) :
  Forall2 E l l' ->
  Forall2 E (sorted_reverse key ltb l) (sorted_reverse key ltb l').
Proof.
  induction 1 as [|x x' l l' Hx Hl IH]; simpl; [constructor|].
  now apply insert_desc_Forall2.
Qed.
End SortedCongruence.

Lemma Forall2_map_same {A B} (E : B -> B -> Prop) (f g : A -> B)
    (l : list A) :
  (forall x, E (f x) (g x)) -> Forall2 E (map f l) (map g l).
Proof. intros H. induction l; simpl; constructor; auto. Qed.

(** Two items carry the same label and equal percentages. *)
Definition same_item (a b : string * Q) : Prop :=
  fst a = fst b /\ snd a == snd b.

Lemma same_item_split (l l' : list (string * Q)) :
  Forall2 same_item l l' ->
  map fst l = map fst l' /\ Forall2 Qeq (map snd l) (map snd l').
Proof.
  induction 1 as [|a b l l' [Hf Hs] _ [IHf IHs]]; simpl.
  - split; constructor.
  - split; [now rewrite Hf, IHf|now constructor].
Qed.

Lemma Qle_bool_Qeq (x x' y y' : Q) :
  x == x' -> y == y' -> Qle_bool x y = Qle_bool x' y'.
Proof.
  intros Hx Hy.
  destruct (Qle_bool x y) eqn:E1, (Qle_bool x' y') eqn:E2; try reflexivity.
  - apply Qle_bool_iff in E1. rewrite Hx, Hy in E1.
    apply Qle_bool_iff in E1. congruence.
  - apply Qle_bool_iff in E2. rewrite <- Hx, <- Hy in E2.
    apply Qle_bool_iff in E2. congruence.
Qed.

Lemma py_lt_same_item (x x' y y' : string * Q) :
  same_item x x' -> same_item y y' ->
  (snd x <? snd y)%py = (snd x' <? snd y')%py.
Proof.
  intros [_ Hx] [_ Hy]. q_ops. f_equal. now apply Qle_bool_Qeq.
Qed.

Lemma py_lt_asym (a b : Q) : (a <? b)%py = true -> (b <? a)%py = false.
Proof. rewrite Q_lt_true, Q_lt_false. lra. Qed.

Lemma py_lt_negtrans (a b c : Q) :
  (a <? b)%py = false -> (b <? c)%py = false -> (a <? c)%py = false.
Proof. rewrite !Q_lt_false. lra. Qed.

Lemma py_lt_separates (p a b : Q) :
  Qeq_bool a p = true -> (a <? b)%py = true -> Qeq_bool b p = false.
Proof.
  intros Ha Hab. apply Qeq_bool_iff in Ha. apply Q_lt_true in Hab.
  destruct (Qeq_bool b p) eqn:Hb; [|reflexivity].
  apply Qeq_bool_iff in Hb. exfalso. lra.
Qed.

(** C7.  With a non-zero lifespan and a daily total in (0, 24], the block
    runs to its end and [sorted_activities] is the percentages rearranged
    (a permutation of [proportions], which is in catalog order), in
    non-increasing order of percentage, and for every percentage [p] the
    activities at [p] come in the same order as in the catalog. *)
Theorem breakdown_sorted_descending_stable
    (lifespan : Z) (widget : string -> Q) :
  lifespan <> 0%Z ->
  0 < daily_hours widget -> daily_hours widget <= 24 ->
  exists page b,
    life_analysis_app lifespan widget = (page, Ok (Some b))
    /\ map fst (proportions b) = map fst categories
    /\ sorted_labels b = map fst (sorted_activities b)
    /\ sorted_percentages b = map snd (sorted_activities b)
    /\ Permutation (sorted_activities b) (proportions b)
    /\ StronglySorted (fun x y => snd y <= snd x) (sorted_activities b)
    /\ forall p,
         filter (fun a => Qeq_bool (snd a) p) (sorted_activities b)
         = filter (fun a => Qeq_bool (snd a) p) (proportions b).
Proof.
  intros HL Hpos Hle.
  assert (Hnz : ~ daily_hours widget == 0) by lra.
  destruct (exact_run_block lifespan widget HL Hnz Hle)
    as [ys [table [texts [_ Hrun]]]].
  eexists. exists (locals_closed lifespan widget ys).
  split; [exact Hrun|]. locals_fields.
  split; [reflexivity|]. split; [reflexivity|]. split; [reflexivity|].
  unfold sorted_closed. split; [apply sorted_reverse_perm|]. split.
  - apply StronglySorted_weaken with (R := not_below (@snd string Q) py_lt).
    + intros x y Hxy. now apply Q_lt_false.
    + apply sorted_reverse_sorted.
      * exact py_lt_asym.
      * exact py_lt_negtrans.
  - intros p.
    apply (sorted_reverse_filter (@snd string Q) py_lt
             (fun k => Qeq_bool k p)).
    intros a b. apply py_lt_separates.
Qed.

Lemma breakdown_sorted_descending_stable_witness :
  let widget : string -> Q := readings DEFAULTS in
  exists page b,
    life_analysis_app 77 widget = (page, Ok (Some b))
    /\ map fst (proportions b) = map fst categories
    /\ StronglySorted (fun x y => snd y <= snd x) (sorted_activities b)
    /\ filter (fun a => Qeq_bool (snd a) (600 # 95)) (sorted_activities b)
       = filter (fun a => Qeq_bool (snd a) (600 # 95)) (proportions b).
Proof.
  intros widget.
  assert (HL : 77%Z <> 0%Z) by discriminate.
  assert (Hpos : 0 < daily_hours widget) by by_computation.
  assert (Hle : daily_hours widget <= 24) by by_computation.
  destruct (breakdown_sorted_descending_stable 77 widget HL Hpos Hle)
    as [page [b [Hrun [Hkeys [_ [_ [_ [Hsorted Hstable]]]]]]]].
  exists page, b. split; [exact Hrun|]. split; [exact Hkeys|].
  split; [exact Hsorted|]. apply Hstable.
Defined.

(** ** Independence of the lifespan *)

Lemma percentage_lifespan (hours d : Q) (lifespan1 lifespan2 : Z) :
  (0 < lifespan1)%Z -> (0 < lifespan2)%Z -> ~ d == 0 ->
  (quotient (hours * of_int 365 * of_int lifespan1)
     (d * of_int 365 * of_int lifespan1) * of_int 100)%py
  == (quotient (hours * of_int 365 * of_int lifespan2)
        (d * of_int 365 * of_int lifespan2) * of_int 100)%py.
Proof.
  intros H1 H2 Hd.
  pose proof (inject_Z_pos _ H1) as Hp1.
  pose proof (inject_Z_pos _ H2) as Hp2.
  q_ops. field. repeat split; try assumption; lra.
Qed.

Lemma proportions_closed_lifespan
    (lifespan1 lifespan2 : Z) (widget : string -> Q) :
  (0 < lifespan1)%Z -> (0 < lifespan2)%Z -> ~ daily_hours widget == 0 ->
  Forall2 same_item (proportions_closed lifespan1 widget)
    (proportions_closed lifespan2 widget).
Proof.
  intros H1 H2 Hd.
  unfold proportions_closed, hours_closed.
  rewrite !map_map. apply Forall2_map_same. intros [label hours].
  split; cbn [fst snd]; [reflexivity|].
  exact (percentage_lifespan hours (daily_hours widget) _ _ H1 H2 Hd).
Qed.

(** C10.  With a daily total in (0, 24], two runs on the same inputs with
    any two positive lifespans bind equal percentages, activity by activity
    in catalog order, and the same sorted order: the same labels and equal
    percentages, position by position. *)
Theorem percentages_independent_of_lifespan
    (lifespan1 lifespan2 : Z) (widget : string -> Q) :
  (0 < lifespan1)%Z -> (0 < lifespan2)%Z ->
  0 < daily_hours widget -> daily_hours widget <= 24 ->
  exists page1 b1 page2 b2,
    life_analysis_app lifespan1 widget = (page1, Ok (Some b1))
    /\ life_analysis_app lifespan2 widget = (page2, Ok (Some b2))
    /\ Forall2 same_item (proportions b1) (proportions b2)
    /\ sorted_labels b1 = sorted_labels b2
    /\ Forall2 Qeq (sorted_percentages b1) (sorted_percentages b2).
Proof.
  intros H1 H2 Hpos Hle.
  assert (Hnz : ~ daily_hours widget == 0) by lra.
  destruct (exact_run_block lifespan1 widget (pos_nonzero _ H1) Hnz Hle)
    as [ys1 [table1 [texts1 [_ Hrun1]]]].
  destruct (exact_run_block lifespan2 widget (pos_nonzero _ H2) Hnz Hle)
    as [ys2 [table2 [texts2 [_ Hrun2]]]].
  eexists. exists (locals_closed lifespan1 widget ys1).
  eexists. exists (locals_closed lifespan2 widget ys2).
  split; [exact Hrun1|]. split; [exact Hrun2|]. locals_fields.
  pose proof (proportions_closed_lifespan _ _ widget H1 H2 Hnz) as Hprops.
  split; [exact Hprops|].
  apply same_item_split. unfold sorted_closed.
  apply sorted_reverse_Forall2; [|exact Hprops].
  intros x x' y y'. apply py_lt_same_item.
Qed.

Lemma percentages_independent_of_lifespan_witness :
  let widget : string -> Q := readings DEFAULTS in
  exists page1 b1 page2 b2,
    life_analysis_app 50 widget = (page1, Ok (Some b1))
    /\ life_analysis_app 100 widget = (page2, Ok (Some b2))
    /\ Forall2 same_item (proportions b1) (proportions b2)
    /\ sorted_labels b1 = sorted_labels b2
    /\ Forall2 Qeq (sorted_percentages b1) (sorted_percentages b2).
Proof.
  intros widget.
  apply (percentages_independent_of_lifespan 50 100 widget);
    by_computation.
Defined.

(** ** A daily total of zero *)

(** Whenever neither the daily total nor the lifespan is zero, the run ends
    without an exception. *)
Lemma run_succeeds_unless_zero (lifespan : Z) (widget : string -> Q) :
  lifespan <> 0%Z -> ~ daily_hours widget == 0 ->
  exists page o, life_analysis_app lifespan widget = (page, Ok o).
Proof.
  intros HL Hnz.
  destruct (Qlt_le_dec 24 (daily_hours widget)) as [Hover|Hle].
  - rewrite (exact_run_over lifespan widget Hover). eauto.
  - destruct (exact_run_block lifespan widget HL Hnz Hle)
      as [ys [table [texts [_ Hrun]]]].
    rewrite Hrun. eauto.
Qed.

(** Inside the budget and away from zero, line 143 gives the free years. *)
Lemma free_years_formula (lifespan : Z) (widget : string -> Q) :
  lifespan <> 0%Z ->
  0 < daily_hours widget -> daily_hours widget <= 24 ->
  exists page b,
    life_analysis_app lifespan widget = (page, Ok (Some b))
    /\ free_years b
       == remaining_hours widget * 365 * inject_Z lifespan / 24 / 365
    /\ free_years b == remaining_hours widget * inject_Z lifespan / 24.
Proof.
  intros HL Hpos Hle.
  assert (Hnz : ~ daily_hours widget == 0) by lra.
  destruct (exact_run_block lifespan widget HL Hnz Hle)
    as [ys [table [texts [_ Hrun]]]].
  eexists. exists (locals_closed lifespan widget ys).
  split; [exact Hrun|]. locals_fields. unfold free_years_closed. q_ops.
  generalize (remaining_hours widget). intros r.
  split; [reflexivity|]. field.
Qed.

Lemma zero_total_run_77 :
  life_analysis_app 77 (all_zero : string -> Q)
  = ([TotalHours 0 24], Raise ZeroDivisionError)
  /\ life_analysis_app 77 (all_zero : string -> float)
     = ([TotalHours 0%float 24%float], Raise ZeroDivisionError).
Proof. split; vm_compute; reflexivity. Qed.

(** C1.  Every slider and dropdown at 0 (a daily total of 0), lifespan 77:
    the run renders the banner (0 hours, 24 remaining) and then raises
    [ZeroDivisionError] at the first division by [total_hours] of line 111,
    in exact arithmetic and in binary64 alike.  No percentage is bound. *)
Theorem all_zero_raises_ZeroDivisionError :
  life_analysis_app 77 (all_zero : string -> Q)
  = ([TotalHours 0 24], Raise ZeroDivisionError)
  /\ life_analysis_app 77 (all_zero : string -> float)
     = ([TotalHours 0%float 24%float], Raise ZeroDivisionError).
Proof. exact zero_total_run_77. Qed.

(** C2.  For every lifespan, the run on the all-zero inputs ends in
    [ZeroDivisionError]: the computation does not always succeed. *)
Theorem all_zero_fails_at_every_lifespan (lifespan : Z) :
  life_analysis_app lifespan (all_zero : string -> Q)
  = ([TotalHours 0 24], Raise ZeroDivisionError).
Proof.
  rewrite (exact_run_zero lifespan all_zero); by_computation.
Qed.

(** C8.  All inputs zero, lifespan 77: line 143 would give 77 free years
    (its divisions are by 24 and 365), but the run raises before reaching
    it, so no free-time figure is rendered and none is bound. *)
Theorem all_zero_free_years_not_reached :
  (forall f, ~ In (FreeTime f)
                 (fst (life_analysis_app 77 (all_zero : string -> Q))))
  /\ snd (life_analysis_app 77 (all_zero : string -> Q))
     = Raise ZeroDivisionError
  /\ (forall f, ~ In (FreeTime f)
                    (fst (life_analysis_app 77 (all_zero : string -> float))))
  /\ snd (life_analysis_app 77 (all_zero : string -> float))
     = Raise ZeroDivisionError
  /\ result_bind
       (py_truediv
          (remaining_hours (all_zero : string -> float)
           * of_int 365 * of_int 77)%py (of_int 24))
       (fun q1 => py_truediv q1 (of_int 365))
     = Ok 77%float.
Proof.
  destruct zero_total_run_77 as [HQ Hf].
  rewrite HQ, Hf. cbn [fst snd].
  repeat split; try (intros f [Hin|[]]; discriminate).
Qed.

(** ** The default values *)

Definition defaults_exact : string -> Q := readings DEFAULTS.
Definition defaults_binary64 : string -> float := readings DEFAULTS.

(** The twelve hour values of DEFAULTS add up to 23.75, a quarter of an
    hour short of the 24 that line 4 announces. *)
Lemma DEFAULTS_sum :
  py_sum (map (fun ck => defaults_exact (snd ck)) categories) == 23.75
  /\ ~ py_sum (map (fun ck => defaults_exact (snd ck)) categories) == 24.
Proof. split; by_computation. Qed.

#[local] Set Warnings "-inexact-float".

(** C3.  Lifespan 77 and every input at its DEFAULTS value: the daily total
    is 23.75 (not 24), 0.25 hours remain (not 0), the free years are 77/96,
    about 0.80 (not 0), Sleeping takes 680/19 percent, about 35.79 (not
    35.42), and 1309/48 years, about 27.27.  The binary64 run gives the same
    figures to the last digit printed. *)
Theorem defaults_run_totals_23_75 :
  daily_hours defaults_exact == 23.75
  /\ remaining_hours defaults_exact == 0.25
  /\ (exists page b percentage years,
        life_analysis_app 77 defaults_exact = (page, Ok (Some b))
        /\ free_years b == 77 # 96
        /\ getitem (proportions b) "Sleeping" = Ok percentage
        /\ percentage == 680 # 19
        /\ 35.78 < percentage < 35.79
        /\ getitem (years_per_activity b) "Sleeping" = Ok years
        /\ years == 1309 # 48
        /\ 27.27 < years < 27.28)
  /\ daily_hours defaults_binary64 = 23.75%float
  /\ remaining_hours defaults_binary64 = 0.25%float
  /\ (exists page b,
        life_analysis_app 77 defaults_binary64 = (page, Ok (Some b))
        /\ free_years b = 0.80208333333333337%float
        /\ getitem (proportions b) "Sleeping" = Ok 35.789473684210527%float
        /\ getitem (years_per_activity b) "Sleeping"
           = Ok 27.270833333333332%float).
Proof.
  split; [by_computation|]. split; [by_computation|]. split.
  - assert (Hrun : exists page b,
              life_analysis_app 77 defaults_exact = (page, Ok (Some b))
              /\ snd (life_analysis_app 77 defaults_exact) = Ok (Some b)).
    { vm_compute. eexists. eexists. split; reflexivity. }
    destruct Hrun as [page [b [Hrun Hb]]].
    vm_compute in Hb. injection Hb as <-.
    exists page. eexists. eexists. eexists.
    split; [exact Hrun|].
    split; [by_computation|].
    split; [vm_compute; reflexivity|].
    split; [by_computation|].
    split; [split; by_computation|].
    split; [vm_compute; reflexivity|].
    split; [by_computation|]. split; by_computation.
  - split; [by_computation|]. split; [by_computation|].
    assert (Hrun : exists page b,
              life_analysis_app 77 defaults_binary64 = (page, Ok (Some b))
              /\ snd (life_analysis_app 77 defaults_binary64) = Ok (Some b)).
    { vm_compute. eexists. eexists. split; reflexivity. }
    destruct Hrun as [page [b [Hrun Hb]]].
    vm_compute in Hb. injection Hb as <-.
    exists page. eexists.
    split; [exact Hrun|]. repeat split; vm_compute; reflexivity.
Qed.

(** ** Binary64 replays

    The script run as CPython runs it, on the inputs used above. *)

Definition float_abs_error (x target : float) : float :=
  PrimFloat.abs (PrimFloat.sub x target).

(** On the defaults the twelve binary64 percentages add up to 100 within
    1e-6, and come out in the order the exact run gives. *)
Lemma binary64_defaults_percentages :
  exists page b,
    life_analysis_app 77 defaults_binary64 = (page, Ok (Some b))
    /\ PrimFloat.ltb
         (float_abs_error (py_sum (values (proportions b))) 100%float)
         1e-6%float = true
    /\ sorted_labels b
       = ["Sleeping"; "Working"; "Leisure"; "Household Chores";
          "Eating and Drinking"; "Free SELF Time"; "Commuting";
          "Caring for Others"; "Education";
          "Religious and Civic Activities"; "Shopping/Errands";
          "Miscellaneous Activities"].
Proof.
  assert (Hrun : exists page b,
            life_analysis_app 77 defaults_binary64 = (page, Ok (Some b))
            /\ snd (life_analysis_app 77 defaults_binary64) = Ok (Some b)).
  { vm_compute. eexists. eexists. split; reflexivity. }
  destruct Hrun as [page [b [Hrun Hb]]].
  vm_compute in Hb. injection Hb as <-.
  exists page. eexists. split; [exact Hrun|].
  split; vm_compute; reflexivity.
Qed.

(** Sleeping at 24 and Working at 1: the banner shows 25 hours and -1
    remaining, and nothing else is rendered. *)
Lemma binary64_over_budget :
  life_analysis_app 77 (readings over_budget : string -> float)
  = ([TotalHours 25%float (-1)%float], Ok None).
Proof. vm_compute. reflexivity. Qed.

(** * Further properties of the script *)

(** ** Comprehensions, zips and enumerations *)

Lemma list_comprehension_Forall2 {A B} (f : A -> result B) (xs : list A)
    (ys : list B) :
  list_comprehension f xs = Ok ys -> Forall2 (fun x y => f x = Ok y) xs ys.
Proof.
  revert ys. induction xs as [|x xs IH]; simpl; intros ys Hys.
  - injection Hys as <-. constructor.
  - destruct (f x) as [y|e] eqn:Hfx; simpl in Hys; [|discriminate].
    destruct (list_comprehension f xs) as [ys'|e]; simpl in Hys;
      [|discriminate].
    injection Hys as <-. constructor; [exact Hfx|]. now apply IH.
Qed.

Lemma Forall2_length_eq {A B} (R : A -> B -> Prop) (xs : list A)
    (ys : list B) :
  Forall2 R xs ys -> List.length xs = List.length ys.
Proof. induction 1; simpl; congruence. Qed.

Lemma combine_fst {A B} (xs : list A) (ys : list B) :
  List.length xs = List.length ys -> map fst (combine xs ys) = xs.
Proof.
  revert ys. induction xs as [|x xs IH]; intros [|y ys] Hlen; simpl in *;
    try discriminate; [reflexivity|].
  f_equal. apply IH. congruence.
Qed.

Lemma combine_snd {A B} (xs : list A) (ys : list B) :
  List.length xs = List.length ys -> map snd (combine xs ys) = ys.
Proof.
  revert ys. induction xs as [|x xs IH]; intros [|y ys] Hlen; simpl in *;
    try discriminate; [reflexivity|].
  f_equal. apply IH. congruence.
Qed.

Lemma enumerate_from_fst {A} (i : nat) (l : list A) :
  map fst (enumerate_from i l) = seq i (List.length l).
Proof.
  revert i. induction l as [|x l IH]; intros i; simpl; [reflexivity|].
  now rewrite IH.
Qed.

Lemma enumerate_from_snd {A} (i : nat) (l : list A) :
  map snd (enumerate_from i l) = l.
Proof.
  revert i. induction l as [|x l IH]; intros i; simpl; [reflexivity|].
  now rewrite IH.
Qed.

Lemma Forall2_sorted_transfer {A B} (R : A -> B -> Prop)
    (P : A -> A -> Prop) (S : B -> B -> Prop) (xs : list A) (ys : list B) :
  (forall x x' y y', R x y -> R x' y' -> P x x' -> S y y') ->
  Forall2 R xs ys -> StronglySorted P xs -> StronglySorted S ys.
Proof.
  intros HPS HR. induction HR as [|x y xs ys Hxy HR IH]; intros Hs.
  - constructor.
  - inversion Hs as [|? ? Hs' Hx]; subst. constructor; [now apply IH|].
    clear IH Hs Hs'. induction HR as [|x' y' xs ys Hxy' HR IH];
      constructor.
    + inversion Hx; subst. now apply (HPS x x' y y').
    + apply IH. now inversion Hx.
Qed.

Lemma StronglySorted_app {A} (P : A -> A -> Prop) (l1 l2 : list A) :
  StronglySorted P l1 -> StronglySorted P l2 ->
  (forall x y, In x l1 -> In y l2 -> P x y) ->
  StronglySorted P (l1 ++ l2).
Proof.
  induction 1 as [|x l1 Hs IH Hx]; simpl; intros H2 H12; [exact H2|].
  constructor.
  - apply IH; [exact H2|]. intros a b Ha Hb. apply H12; [now right|exact Hb].
  - apply Forall_app. split; [exact Hx|].
    apply Forall_forall. intros y Hy. apply H12; [now left|exact Hy].
Qed.

Lemma StronglySorted_rev {A} (P : A -> A -> Prop) (l : list A) :
  StronglySorted P l -> StronglySorted (fun x y => P y x) (rev l).
Proof.
  induction 1 as [|x l Hs IH Hx]; simpl; [constructor|].
  apply StronglySorted_app; [exact IH|repeat constructor|].
  intros a b Ha [<-|[]]. rewrite Forall_forall in Hx. apply Hx.
  now apply in_rev.
Qed.

(** ** The page of a run that reaches the end of the block *)

Section RunDetail.
Context {num : Type} `{Number num}.
Local Open Scope py_scope.
Variable lifespan : Z.
Variable widget : string -> num.
Hypothesis H24 : is_zero (of_int 24) = false.
Hypothesis H365 : is_zero (of_int 365) = false.

(** The annotations of the chart (lines 125-126) in closed form. *)
Definition chart_texts (widths years : list num)
    : list (num * nat * num) :=
  map (fun ipy => (fst (snd ipy) + literal (1 # 2), fst ipy, snd (snd ipy)))
    (enumerate_from 0 (combine widths years)).

Lemma run_block_page :
  (daily_hours widget <=? of_int 24) = true ->
  is_zero (daily_hours widget * of_int 365 * of_int lifespan) = false ->
  (forall x : num, exists z, py_int x = Ok z) ->
  exists ys table,
    list_comprehension
      (fun ap => getitem (years_closed lifespan widget) (fst ap))
      (sorted_closed lifespan widget) = Ok ys
    /\ list_comprehension (breakdown_row (num := num))
         (combine (combine (map fst (sorted_closed lifespan widget))
                     (map snd (sorted_closed lifespan widget))) ys)
       = Ok table
    /\ life_analysis_app lifespan widget
       = ([TotalHours (daily_hours widget) (remaining_hours widget);
           BarChart (rev (map fst (sorted_closed lifespan widget)))
             (rev (map snd (sorted_closed lifespan widget)))
             (chart_texts (rev (map snd (sorted_closed lifespan widget)))
                (rev ys));
           Table table;
           FreeTime (free_years_closed lifespan widget)],
          Ok (Some (locals_closed lifespan widget ys))).
Proof.
  intros Hle Ht Hint.
  destruct (sorted_years_run lifespan widget) as [ys [Hys _]].
  destruct (breakdown_table_run
              (combine (combine (map fst (sorted_closed lifespan widget))
                          (map snd (sorted_closed lifespan widget))) ys)
              Hint)
    as [table [Htable _]].
  exists ys, table. split; [exact Hys|]. split; [exact Htable|].
  unfold life_analysis_app. rewrite Hle.
  rewrite bind_render. cbv beta.
  rewrite activities_run, bind_eval_Ok.
  rewrite hours_run, bind_eval_Ok.
  rewrite (years_run lifespan widget H24 H365), bind_eval_Ok.
  rewrite (proportions_run lifespan widget Ht), bind_eval_Ok.
  unfold items. fold (sorted_closed lifespan widget).
  rewrite Hys, bind_eval_Ok.
  rewrite bind_render. cbv beta.
  rewrite Htable, bind_eval_Ok.
  rewrite bind_render. cbv beta.
  unfold py_truediv at 1. rewrite H24, bind_eval_Ok.
  unfold py_truediv at 1. rewrite H365, bind_eval_Ok.
  rewrite bind_render. cbv beta.
  reflexivity.
Qed.
End RunDetail.

Arguments chart_texts : simpl never.

(** ** Exact arithmetic: sums, bounds and closed forms *)

Lemma exact_run_page (lifespan : Z) (widget : string -> Q) :
  lifespan <> 0%Z ->
  ~ daily_hours widget == 0 -> daily_hours widget <= 24 ->
  exists ys table,
    list_comprehension
      (fun ap => getitem (years_closed lifespan widget) (fst ap))
      (sorted_closed lifespan widget) = Ok ys
    /\ list_comprehension (breakdown_row (num := Q))
         (combine (combine (map fst (sorted_closed lifespan widget))
                     (map snd (sorted_closed lifespan widget))) ys)
       = Ok table
    /\ life_analysis_app lifespan widget
       = ([TotalHours (daily_hours widget) (remaining_hours widget);
           BarChart (rev (map fst (sorted_closed lifespan widget)))
             (rev (map snd (sorted_closed lifespan widget)))
             (chart_texts (rev (map snd (sorted_closed lifespan widget)))
                (rev ys));
           Table table;
           FreeTime (free_years_closed lifespan widget)],
          Ok (Some (locals_closed lifespan widget ys))).
Proof.
  intros HL Hd Hle.
  apply run_block_page; try reflexivity.
  - now apply Q_le_true.
  - apply Q_is_zero_false. q_ops. now apply total_hours_nonzero.
  - exact Q_py_int_total.
Qed.

Lemma Qsum_nonneg (xs : list Q) :
  Forall (fun x => 0 <= x) xs -> 0 <= Qsum xs.
Proof. induction 1 as [|x xs Hx _ IH]; simpl; lra. Qed.

Lemma Qsum_In_le (xs : list Q) (x : Q) :
  Forall (fun x => 0 <= x) xs -> In x xs -> x <= Qsum xs.
Proof.
  induction 1 as [|y xs Hy Hxs IH]; simpl; intros Hin; [contradiction|].
  pose proof (Qsum_nonneg xs Hxs) as Hs.
  destruct Hin as [->|Hin]; [lra|]. specialize (IH Hin). lra.
Qed.

Lemma Qsum_zero_all (xs : list Q) :
  Forall (fun x => 0 <= x) xs ->
  (Qsum xs == 0 <-> Forall (fun x => x == 0) xs).
Proof.
  induction 1 as [|y xs Hy Hxs IH]; simpl.
  - split; [constructor|reflexivity].
  - pose proof (Qsum_nonneg xs Hxs) as Hs. split.
    + intros Hz. constructor; [lra|]. apply IH. lra.
    + intros Hall. inversion Hall as [|? ? Hy0 Hxs0]; subst.
      apply IH in Hxs0. lra.
Qed.

(** The inputs of the catalog, in catalog order. *)
Definition catalog_inputs (widget : string -> Q) : list Q :=
  map (fun ck => widget (snd ck)) categories.

Definition nonnegative_inputs (widget : string -> Q) : Prop :=
  forall category key, In (category, key) categories -> 0 <= widget key.

Lemma nonnegative_inputs_Forall (widget : string -> Q) :
  nonnegative_inputs widget ->
  Forall (fun x => 0 <= x) (catalog_inputs widget).
Proof.
  intros Hnn. apply Forall_forall. intros x Hx.
  apply in_map_iff in Hx. destruct Hx as [[category key] [<- Hin]].
  exact (Hnn category key Hin).
Qed.

Lemma input_le_daily (widget : string -> Q) (category key : string) :
  nonnegative_inputs widget -> In (category, key) categories ->
  0 <= widget key <= daily_hours widget.
Proof.
  intros Hnn Hin. split; [exact (Hnn category key Hin)|].
  rewrite daily_hours_Qsum. apply Qsum_In_le.
  - now apply nonnegative_inputs_Forall.
  - exact (in_map (fun ck => widget (snd ck)) _ _ Hin).
Qed.

(** The entries of the block's dictionaries for one activity. *)
Lemma closed_entries (lifespan : Z) (widget : string -> Q)
    (category key : string) :
  In (category, key) categories ->
  let hours := widget key * 365 * inject_Z lifespan in
  In (category, hours) (hours_closed lifespan widget)
  /\ getitem (hours_closed lifespan widget) category = Ok hours
  /\ getitem (years_closed lifespan widget) category = Ok (hours / 24 / 365)
  /\ getitem (proportions_closed lifespan widget) category
     = Ok (hours / (daily_hours widget * 365 * inject_Z lifespan) * 100).
Proof.
  intros Hin hours.
  destruct (closed_keys lifespan widget) as [_ [Hkh [Hky Hkp]]].
  assert (Hh : In (category, hours) (hours_closed lifespan widget)).
  { unfold hours_closed, activities_closed. rewrite map_map.
    exact (in_map (fun ck : string * string =>
                     (fst ck, (widget (snd ck) * of_int 365
                               * of_int lifespan)%py)) _ _ Hin). }
  split; [exact Hh|]. split.
  { apply getitem_In; [rewrite Hkh; exact categories_NoDup|exact Hh]. }
  split.
  { apply getitem_In; [rewrite Hky; exact categories_NoDup|].
    exact (in_map (fun ah : string * Q =>
                     (fst ah, quotient (quotient (snd ah) (of_int 24))
                                (of_int 365))) _ _ Hh). }
  apply getitem_In; [rewrite Hkp; exact categories_NoDup|].
  exact (in_map (fun ah : string * Q =>
                   (fst ah, (quotient (snd ah)
                               (daily_hours widget * of_int 365
                                * of_int lifespan) * of_int 100)%py))
           _ _ Hh).
Qed.

(** Every item of [proportions] belongs to an activity of the catalog. *)
Lemma proportions_closed_In (lifespan : Z) (widget : string -> Q)
    (ap : string * Q) :
  In ap (proportions_closed lifespan widget) ->
  exists key,
    In (fst ap, key) categories
    /\ snd ap
       = widget key * 365 * inject_Z lifespan
         / (daily_hours widget * 365 * inject_Z lifespan) * 100.
Proof.
  unfold proportions_closed, hours_closed, activities_closed.
  rewrite !map_map. intros Hin. apply in_map_iff in Hin.
  destruct Hin as [[category key] [<- Hin]]. exists key.
  split; [exact Hin|reflexivity].
Qed.

Lemma share_of_day (hours d : Q) (lifespan : Z) :
  lifespan <> 0%Z -> ~ d == 0 ->
  hours * 365 * inject_Z lifespan / (d * 365 * inject_Z lifespan) * 100
  == hours / d * 100.
Proof.
  intros HL Hd. pose proof (inject_Z_nonzero _ HL) as HLq.
  field. split; assumption.
Qed.


(** X1.  When the block runs to its end, the lifetime hours of the twelve
    activities add up to [total_hours]. *)
Theorem lifetime_hours_add_up (lifespan : Z) (widget : string -> Q) :
  lifespan <> 0%Z ->
  0 < daily_hours widget -> daily_hours widget <= 24 ->
  exists page b,
    life_analysis_app lifespan widget = (page, Ok (Some b))
    /\ py_sum (values (hours_per_activity b)) == total_hours b.
Proof.
  intros HL Hpos Hle.
  assert (Hnz : ~ daily_hours widget == 0) by lra.
  destruct (exact_run_block lifespan widget HL Hnz Hle)
    as [ys [table [texts [_ Hrun]]]].
  eexists. exists (locals_closed lifespan widget ys).
  split; [exact Hrun|]. locals_fields.
  rewrite py_sum_Qsum, (Qsum_hours_closed lifespan widget). q_ops.
  reflexivity.
Qed.

Lemma lifetime_hours_add_up_witness :
  let widget : string -> Q := readings DEFAULTS in
  exists page b,
    life_analysis_app 77 widget = (page, Ok (Some b))
    /\ py_sum (values (hours_per_activity b)) == total_hours b.
Proof.
  intros widget.
  apply (lifetime_hours_add_up 77 widget); by_computation.
Defined.



(** X3.  On non-negative inputs, when the block runs to its end, every
    percentage lies between 0 and 100. *)
Theorem percentages_between_0_and_100
    (lifespan : Z) (widget : string -> Q) :
  lifespan <> 0%Z -> nonnegative_inputs widget ->
  0 < daily_hours widget -> daily_hours widget <= 24 ->
  exists page b,
    life_analysis_app lifespan widget = (page, Ok (Some b))
    /\ forall ap, In ap (proportions b) -> 0 <= snd ap <= 100.
Proof.
  intros HL Hnn Hpos Hle.
  assert (Hnz : ~ daily_hours widget == 0) by lra.
  destruct (exact_run_block lifespan widget HL Hnz Hle)
    as [ys [table [texts [_ Hrun]]]].
  eexists. exists (locals_closed lifespan widget ys).
  split; [exact Hrun|]. locals_fields. intros ap Hap.
  destruct (proportions_closed_In lifespan widget ap Hap)
    as [key [Hin ->]].
  rewrite (share_of_day _ _ _ HL Hnz).
  destruct (input_le_daily widget (fst ap) key Hnn Hin) as [H0 Hd].
  revert Hpos H0 Hd. generalize (daily_hours widget), (widget key).
  intros d h Hpos H0 Hd.
  assert (Hx : 0 <= h / d <= 1).
  { split.
    - apply Qle_shift_div_l; [exact Hpos|]. lra.
    - apply Qle_shift_div_r; [exact Hpos|]. lra. }
  lra.
Qed.

Lemma nonnegative_inputs_DEFAULTS :
  nonnegative_inputs (readings DEFAULTS).
Proof.
  intros category key Hin.
  repeat (destruct Hin as [Heq|Hin];
          [injection Heq as <- <-; by_computation|]).
  contradiction.
Qed.

Lemma percentages_between_0_and_100_witness :
  let widget : string -> Q := readings DEFAULTS in
  exists page b,
    life_analysis_app 77 widget = (page, Ok (Some b))
    /\ forall ap, In ap (proportions b) -> 0 <= snd ap <= 100.
Proof.
  intros widget.
  apply (percentages_between_0_and_100 77 widget);
    [by_computation|exact nonnegative_inputs_DEFAULTS
    |by_computation|by_computation].
Defined.



(** ** The three outcomes of a run *)

Lemma exact_run_total_zero (lifespan : Z) (widget : string -> Q) :
  daily_hours widget <= 24 ->
  daily_hours widget * 365 * inject_Z lifespan == 0 ->
  life_analysis_app lifespan widget
  = ([TotalHours (daily_hours widget) (remaining_hours widget)],
     Raise ZeroDivisionError).
Proof.
  intros Hle Hz. apply run_zero_total; try reflexivity.
  - now apply Q_le_true.
  - apply Q_is_zero_true. q_ops. exact Hz.
Qed.

Lemma total_hours_nonzero_inv (d : Q) (lifespan : Z) :
  ~ d * 365 * inject_Z lifespan == 0 -> lifespan <> 0%Z /\ ~ d == 0.
Proof.
  intros Hnz. split.
  - intros ->. apply Hnz. change (inject_Z 0) with 0. ring.
  - intros Hd. apply Hnz. rewrite Hd. ring.
Qed.

Lemma total_hours_zero_inv (d : Q) (lifespan : Z) :
  lifespan <> 0%Z -> (d * 365 * inject_Z lifespan == 0 <-> d == 0).
Proof.
  intros HL. split.
  - intros Hz. destruct (Qeq_dec d 0) as [Hd|Hd]; [exact Hd|].
    now destruct (total_hours_nonzero d lifespan HL Hd).
  - intros ->. ring.
Qed.

Lemma exact_run_cases (lifespan : Z) (widget : string -> Q) :
  (24 < daily_hours widget
   /\ snd (life_analysis_app lifespan widget) = Ok None)
  \/ (daily_hours widget <= 24
      /\ daily_hours widget * 365 * inject_Z lifespan == 0
      /\ snd (life_analysis_app lifespan widget) = Raise ZeroDivisionError)
  \/ (daily_hours widget <= 24
      /\ ~ daily_hours widget * 365 * inject_Z lifespan == 0
      /\ exists b, snd (life_analysis_app lifespan widget) = Ok (Some b)).
Proof.
  destruct (Qlt_le_dec 24 (daily_hours widget)) as [Hover|Hle].
  - left. split; [exact Hover|].
    now rewrite (exact_run_over lifespan widget Hover).
  - right.
    destruct (Qeq_dec (daily_hours widget * 365 * inject_Z lifespan) 0)
      as [Hz|Hnz].
    + left. split; [exact Hle|]. split; [exact Hz|].
      now rewrite (exact_run_total_zero lifespan widget Hle Hz).
    + right. split; [exact Hle|]. split; [exact Hnz|].
      destruct (total_hours_nonzero_inv _ _ Hnz) as [HL Hd].
      destruct (exact_run_block lifespan widget HL Hd Hle)
        as [ys [table [texts [_ Hrun]]]].
      rewrite Hrun. cbn [snd]. eauto.
Qed.

(** X5.  A run has exactly three outcomes.  It skips the block when the
    daily total exceeds 24; it raises [ZeroDivisionError] when the daily
    total is at most 24 and [total_hours] is zero; otherwise it runs the
    block to its end.  It raises no other exception: no [KeyError], no
    [ValueError], no [OverflowError]. *)
Theorem run_outcomes (lifespan : Z) (widget : string -> Q) :
  (snd (life_analysis_app lifespan widget) = Ok None
   <-> 24 < daily_hours widget)
  /\ (snd (life_analysis_app lifespan widget) = Raise ZeroDivisionError
      <-> daily_hours widget <= 24
          /\ daily_hours widget * 365 * inject_Z lifespan == 0)
  /\ ((exists b, snd (life_analysis_app lifespan widget) = Ok (Some b))
      <-> daily_hours widget <= 24
          /\ ~ daily_hours widget * 365 * inject_Z lifespan == 0)
  /\ (forall e, snd (life_analysis_app lifespan widget) = Raise e ->
        e = ZeroDivisionError).
Proof.
  destruct (exact_run_cases lifespan widget)
    as [[Hd Hr]|[[Hd [Ht Hr]]|[Hd [Ht [b Hr]]]]]; rewrite Hr.
  - split; [tauto|]. split; [split; [discriminate|intros [? _]; lra]|].
    split; [split; [intros [? ?]; discriminate|intros [? _]; lra]|].
    intros e He. discriminate.
  - split; [split; [discriminate|lra]|]. split; [tauto|].
    split; [split; [intros [? ?]; discriminate|tauto]|].
    intros e He. now injection He as <-.
  - split; [split; [discriminate|lra]|].
    split; [split; [discriminate|tauto]|].
    split; [split; eauto|]. intros e He. discriminate.
Qed.

(** X6.  On non-negative inputs and with a non-zero lifespan, a run raises
    exactly when all twelve inputs are zero. *)
Theorem raises_iff_all_inputs_zero (lifespan : Z) (widget : string -> Q) :
  lifespan <> 0%Z -> nonnegative_inputs widget ->
  ((exists e, snd (life_analysis_app lifespan widget) = Raise e)
   <-> forall category key, In (category, key) categories ->
       widget key == 0).
Proof.
  intros HL Hnn.
  pose proof (nonnegative_inputs_Forall widget Hnn) as Hall.
  pose proof (Qsum_zero_all _ Hall) as Hzero.
  unfold catalog_inputs in Hzero at 1.
  rewrite <- (daily_hours_Qsum widget) in Hzero.
  assert (Hiff : (forall category key, In (category, key) categories ->
                    widget key == 0)
                 <-> daily_hours widget == 0).
  { rewrite Hzero. unfold catalog_inputs. rewrite Forall_forall. split.
    - intros Hz x Hx. apply in_map_iff in Hx.
      destruct Hx as [[category key] [<- Hin]]. exact (Hz category key Hin).
    - intros Hz category key Hin. apply Hz.
      exact (in_map (fun ck => widget (snd ck)) _ _ Hin). }
  rewrite Hiff. clear Hiff Hzero Hall.
  pose proof (total_hours_zero_inv (daily_hours widget) lifespan HL) as Hz.
  destruct (exact_run_cases lifespan widget)
    as [[Hd Hr]|[[Hd [Ht Hr]]|[Hd [Ht [b Hr]]]]]; rewrite Hr.
  - split; [intros [e He]; discriminate|lra].
  - split; [|eauto]. intros _. now apply Hz.
  - split; [intros [e He]; discriminate|].
    intros Hd0. exfalso. apply Ht. now apply Hz.
Qed.

Lemma raises_iff_all_inputs_zero_witness :
  exists e,
    snd (life_analysis_app 77 (all_zero : string -> Q)) = Raise e.
Proof.
  apply (raises_iff_all_inputs_zero 77 all_zero).
  - discriminate.
  - intros category key _. by_computation.
  - intros category key _. by_computation.
Defined.

(** ** The sorted years, the table and the chart *)


Lemma Forall2_impl_In {A B} (R S : A -> B -> Prop) (xs : list A)
    (ys : list B) :
  (forall x y, In x xs -> R x y -> S x y) ->
  Forall2 R xs ys -> Forall2 S xs ys.
Proof.
  intros HRS HR. induction HR as [|x y xs ys Hxy HR IH]; constructor.
  - apply HRS; [now left|exact Hxy].
  - apply IH. intros a b Ha. apply HRS. now right.
Qed.


Lemma Forall2_map_left {A B C} (f : A -> C) (R : C -> B -> Prop)
    (xs : list A) (ys : list B) :
  Forall2 (fun x y => R (f x) y) xs ys -> Forall2 R (map f xs) ys.
Proof. induction 1; simpl; constructor; auto. Qed.

Lemma Forall2_map_right {A B C} (f : B -> C) (R : A -> C -> Prop)
    (xs : list A) (ys : list B) :
  Forall2 (fun x y => R x (f y)) xs ys -> Forall2 R xs (map f ys).
Proof. induction 1; simpl; constructor; auto. Qed.


Lemma sorted_closed_descending (lifespan : Z) (widget : string -> Q) :
  StronglySorted (fun x y => snd y <= snd x) (sorted_closed lifespan widget).
Proof.
  unfold sorted_closed.
  apply StronglySorted_weaken with (R := not_below (@snd string Q) py_lt).
  - intros x y Hxy. now apply Q_lt_false.
  - apply sorted_reverse_sorted.
    + exact py_lt_asym.
    + exact py_lt_negtrans.
Qed.

(** Position by position, the sorted years belong to the activity sorted at
    that position. *)
Lemma sorted_years_entries (lifespan : Z) (widget : string -> Q)
    (ys : list Q) :
  list_comprehension
    (fun ap => getitem (years_closed lifespan widget) (fst ap))
    (sorted_closed lifespan widget) = Ok ys ->
  Forall2
    (fun ap years =>
       getitem (years_closed lifespan widget) (fst ap) = Ok years
       /\ exists key,
            In (fst ap, key) categories
            /\ snd ap
               = widget key * 365 * inject_Z lifespan
                 / (daily_hours widget * 365 * inject_Z lifespan) * 100
            /\ years = widget key * 365 * inject_Z lifespan / 24 / 365)
    (sorted_closed lifespan widget) ys.
Proof.
  intros Hys. apply list_comprehension_Forall2 in Hys.
  eapply Forall2_impl_In; [|exact Hys]. cbv beta.
  intros ap years Hin Hget. split; [exact Hget|].
  apply (Permutation_in _ (sorted_reverse_perm _ _ _)) in Hin.
  destruct (proportions_closed_In lifespan widget ap Hin) as [key [Hk Hp]].
  exists key. split; [exact Hk|]. split; [exact Hp|].
  destruct (closed_entries lifespan widget (fst ap) key Hk)
    as [_ [_ [Hy _]]].
  rewrite Hy in Hget. now injection Hget as <-.
Qed.

Lemma years_of_percentage (hours d : Q) (lifespan : Z) :
  lifespan <> 0%Z -> ~ d == 0 ->
  hours * 365 * inject_Z lifespan / 24 / 365
  == hours * 365 * inject_Z lifespan / (d * 365 * inject_Z lifespan) * 100
     * (d * inject_Z lifespan / 2400).
Proof.
  intros HL Hd. pose proof (inject_Z_nonzero _ HL) as HLq.
  field. split; assumption.
Qed.

(** X7.  With a positive lifespan, when the block runs to its end, the
    sorted years follow the sorted order: at every position they are the
    lifetime years of the activity sorted there, there are twelve of them,
    and they are non-increasing like the percentages. *)
Theorem sorted_years_follow_sorted_labels
    (lifespan : Z) (widget : string -> Q) :
  (0 < lifespan)%Z ->
  0 < daily_hours widget -> daily_hours widget <= 24 ->
  exists page b,
    life_analysis_app lifespan widget = (page, Ok (Some b))
    /\ Forall2
         (fun label years =>
            getitem (years_per_activity b) label = Ok years)
         (sorted_labels b) (sorted_years b)
    /\ List.length (sorted_years b) = 12%nat
    /\ StronglySorted (fun x y => y <= x) (sorted_years b).
Proof.
  intros HLpos Hpos Hle. pose proof (pos_nonzero _ HLpos) as HL.
  assert (Hnz : ~ daily_hours widget == 0) by lra.
  destruct (exact_run_page lifespan widget HL Hnz Hle)
    as [ys [table [Hys [_ Hrun]]]].
  eexists. exists (locals_closed lifespan widget ys).
  split; [exact Hrun|]. locals_fields.
  pose proof (sorted_years_entries lifespan widget ys Hys) as Hent.
  split; [|split].
  - apply Forall2_map_left.
    eapply Forall2_impl; [|exact Hent]. cbv beta. now intros ap y [Hget _].
  - rewrite <- (Forall2_length_eq _ _ _ Hent). unfold sorted_closed.
    rewrite (Permutation_length (sorted_reverse_perm _ _ _)).
    reflexivity.
  - pose proof (inject_Z_pos _ HLpos) as HLq.
    apply (Forall2_sorted_transfer
             (fun (ap : string * Q) (y : Q) =>
                y == snd ap * (daily_hours widget * inject_Z lifespan / 2400))
             (fun x y : string * Q => snd y <= snd x)
             (fun x y : Q => y <= x)
             (sorted_closed lifespan widget) ys).
    + intros x x' y y' -> -> Hxx'.
      apply Qmult_le_compat_r; [exact Hxx'|].
      revert Hpos. generalize (daily_hours widget). intros d Hpos.
      apply Qle_shift_div_l; [reflexivity|]. rewrite Qmult_0_l.
      apply Qmult_le_0_compat; lra.
    + eapply Forall2_impl; [|exact Hent]. cbv beta.
      intros ap y [_ [key [_ [-> ->]]]].
      now apply years_of_percentage.
    + apply sorted_closed_descending.
Qed.

Lemma sorted_years_follow_sorted_labels_witness :
  let widget : string -> Q := readings DEFAULTS in
  exists page b,
    life_analysis_app 77 widget = (page, Ok (Some b))
    /\ Forall2
         (fun label years =>
            getitem (years_per_activity b) label = Ok years)
         (sorted_labels b) (sorted_years b)
    /\ List.length (sorted_years b) = 12%nat
    /\ StronglySorted (fun x y => y <= x) (sorted_years b).
Proof.
  intros widget.
  apply (sorted_years_follow_sorted_labels 77 widget); by_computation.
Defined.






Lemma chart_texts_from (i : nat) (l : list (Q * Q)) :
  let texts :=
    map (fun ipy : nat * (Q * Q) =>
           ((fst (snd ipy) + literal (1 # 2))%py, fst ipy, snd (snd ipy)))
      (enumerate_from i l) in
  map (fun t : Q * nat * Q => snd (fst t)) texts = seq i (List.length l)
  /\ map snd texts = map snd l
  /\ map (fun t : Q * nat * Q => fst (fst t)) texts
     = map (fun wy => fst wy + (1 # 2)) l.
Proof.
  revert i. induction l as [|wy l IH]; intros i.
  - repeat split.
  - destruct (IH (S i)) as [H1 [H2 H3]].
    cbn [map enumerate_from fst snd List.length seq].
    split; [|split]; f_equal; assumption.
Qed.

Lemma chart_texts_rows (widths years : list Q) :
  List.length widths = List.length years ->
  map (fun t : Q * nat * Q => snd (fst t)) (chart_texts widths years)
  = seq 0 (List.length widths)
  /\ map snd (chart_texts widths years) = years
  /\ map (fun t : Q * nat * Q => fst (fst t)) (chart_texts widths years)
     = map (fun w => w + (1 # 2)) widths.
Proof.
  intros Hlen. unfold chart_texts.
  destruct (chart_texts_from 0 (combine widths years)) as [H1 [H2 H3]].
  split; [|split].
  - rewrite H1, length_combine, <- Hlen, Nat.min_id. reflexivity.
  - rewrite H2. now apply combine_snd.
  - rewrite H3, <- (map_map fst (fun w : Q => w + (1 # 2))).
    now rewrite (combine_fst _ _ Hlen).
Qed.

(** X9.  When the block runs to its end the page carries a chart of twelve
    bars listed in reverse sorted order, so the widths are non-decreasing;
    bar number [i] is annotated at row [i], at its width plus 0.5, with the
    years that the sorted order pairs with its activity. *)
Theorem chart_bars_ascending (lifespan : Z) (widget : string -> Q) :
  lifespan <> 0%Z ->
  0 < daily_hours widget -> daily_hours widget <= 24 ->
  exists page b labels widths texts,
    life_analysis_app lifespan widget = (page, Ok (Some b))
    /\ In (BarChart labels widths texts) page
    /\ labels = rev (sorted_labels b)
    /\ widths = rev (sorted_percentages b)
    /\ StronglySorted Qle widths
    /\ map (fun t : Q * nat * Q => snd (fst t)) texts = seq 0 12
    /\ map snd texts = rev (sorted_years b)
    /\ map (fun t : Q * nat * Q => fst (fst t)) texts
       = map (fun w => w + (1 # 2)) widths.
Proof.
  intros HL Hpos Hle.
  assert (Hnz : ~ daily_hours widget == 0) by lra.
  destruct (exact_run_page lifespan widget HL Hnz Hle)
    as [ys [table [Hys [_ Hrun]]]].
  eexists. exists (locals_closed lifespan widget ys).
  eexists. eexists. eexists.
  split; [exact Hrun|]. locals_fields.
  split; [right; now left|].
  split; [reflexivity|]. split; [reflexivity|].
  pose proof (sorted_years_entries lifespan widget ys Hys) as Hent.
  pose proof (Forall2_length_eq _ _ _ Hent) as Hlen.
  assert (H12 : List.length (sorted_closed lifespan widget) = 12%nat).
  { unfold sorted_closed.
    now rewrite (Permutation_length (sorted_reverse_perm _ _ _)). }
  assert (Hl : List.length (rev (map snd (sorted_closed lifespan widget)))
               = List.length (rev ys)).
  { now rewrite !length_rev, length_map. }
  destruct (chart_texts_rows _ _ Hl) as [Hrow [Hyears Hx]].
  split.
  - apply (StronglySorted_rev (fun x y : Q => y <= x)).
    apply (Forall2_sorted_transfer
             (fun (ap : string * Q) (p : Q) => p = snd ap)
             (fun x y : string * Q => snd y <= snd x)
             (fun x y : Q => y <= x)
             (sorted_closed lifespan widget)).
    + now intros x x' y y' -> ->.
    + apply Forall2_map_right. clear.
      induction (sorted_closed lifespan widget); constructor; auto.
    + apply sorted_closed_descending.
  - split; [|split; [exact Hyears|exact Hx]].
    rewrite Hrow, length_rev, length_map, H12. reflexivity.
Qed.

Lemma chart_bars_ascending_witness :
  let widget : string -> Q := readings DEFAULTS in
  exists page b labels widths texts,
    life_analysis_app 77 widget = (page, Ok (Some b))
    /\ In (BarChart labels widths texts) page
    /\ labels = rev (sorted_labels b)
    /\ widths = rev (sorted_percentages b)
    /\ StronglySorted Qle widths
    /\ map (fun t : Q * nat * Q => snd (fst t)) texts = seq 0 12
    /\ map snd texts = rev (sorted_years b)
    /\ map (fun t : Q * nat * Q => fst (fst t)) texts
       = map (fun w => w + (1 # 2)) widths.
Proof.
  intros widget.
  apply (chart_bars_ascending 77 widget); by_computation.
Defined.

(** ** The session state: "Reset to Defaults" *)

Lemma getitem_setitem_same {V} (d : dict V) (k : string) (v : V) :
  getitem (setitem d k v) k = Ok v.
Proof.
  induction d as [|[k' v'] d IH]; simpl.
  - now rewrite String.eqb_refl.
  - destruct (String.eqb_spec k' k) as [->|Hne]; simpl.
    + now rewrite String.eqb_refl.
    + destruct (String.eqb_spec k' k); [contradiction|exact IH].
Qed.

Lemma getitem_setitem_other {V} (d : dict V) (k k' : string) (v : V) :
  k <> k' -> getitem (setitem d k v) k' = getitem d k'.
Proof.
  intros Hne. induction d as [|[k0 v0] d IH]; simpl.
  - destruct (String.eqb_spec k k'); [contradiction|reflexivity].
  - destruct (String.eqb_spec k0 k) as [->|Hk0]; simpl.
    + destruct (String.eqb_spec k k'); [contradiction|reflexivity].
    + destruct (String.eqb_spec k0 k'); [reflexivity|exact IH].
Qed.

Lemma setitem_same_value {V} (d : dict V) (k : string) (v : V) :
  getitem d k = Ok v -> setitem d k v = d.
Proof.
  induction d as [|[k' v'] d IH]; simpl; [discriminate|].
  destruct (String.eqb_spec k' k) as [->|Hne].
  - intros Hv. now injection Hv as ->.
  - intros Hv. now rewrite IH.
Qed.

Lemma DEFAULTS_NoDup : NoDup (map fst DEFAULTS).
Proof.
  rewrite <- (eq_refl : nodup string_dec (map fst DEFAULTS)
                        = map fst DEFAULTS).
  apply NoDup_nodup.
Qed.

Section Reset.
Context {num : Type} `{Number num}.

(** Storing a table of defaults, item by item. *)
Definition store (table : dict Q) (session_state : dict num) : dict num :=
  fold_left (fun s kv => setitem s (fst kv) (literal (snd kv)))
    table session_state.

Lemma reset_to_defaults_store (session_state : dict num) :
  reset_to_defaults session_state = Ok (store DEFAULTS session_state).
Proof. reflexivity. Qed.

Lemma store_other (table : dict Q) (s : dict num) (k : string) :
  ~ In k (map fst table) -> getitem (store table s) k = getitem s k.
Proof.
  revert s. induction table as [|[k0 v0] table IH]; intros s Hk;
    [reflexivity|].
  cbn [store fold_left fst snd]. fold (store table (setitem s k0 (literal v0))).
  rewrite IH.
  - apply getitem_setitem_other. intros ->. apply Hk. now left.
  - intros Hin. apply Hk. now right.
Qed.

Lemma store_In (table : dict Q) (s : dict num) (k : string) (v : Q) :
  NoDup (map fst table) -> In (k, v) table ->
  getitem (store table s) k = Ok (literal v).
Proof.
  revert s. induction table as [|[k0 v0] table IH]; intros s Hnd Hin;
    [contradiction|].
  inversion Hnd as [|? ? Hk0 Hnd']; subst.
  cbn [store fold_left fst snd]. fold (store table (setitem s k0 (literal v0))).
  destruct Hin as [Heq|Hin].
  - injection Heq as -> ->. rewrite store_other by exact Hk0.
    apply getitem_setitem_same.
  - now apply IH.
Qed.

Lemma store_fixed (table : dict Q) (s : dict num) :
  (forall k v, In (k, v) table -> getitem s k = Ok (literal v)) ->
  store table s = s.
Proof.
  induction table as [|[k0 v0] table IH]; intros Hs; [reflexivity|].
  cbn [store fold_left fst snd].
  rewrite (setitem_same_value s k0 (literal v0)) by (apply Hs; now left).
  apply IH. intros k v Hin. apply Hs. now right.
Qed.

(** X10.  "Reset to Defaults" never raises.  Afterwards every key of
    DEFAULTS holds its DEFAULTS value in the session state, and every other
    key holds what it held before. *)
Theorem reset_restores_defaults (session_state : dict num) :
  exists s',
    reset_to_defaults session_state = Ok s'
    /\ (forall key v, In (key, v) DEFAULTS ->
          getitem s' key = Ok (literal v))
    /\ (forall key, ~ In key (map fst DEFAULTS) ->
          getitem s' key = getitem session_state key).
Proof.
  exists (store DEFAULTS session_state).
  split; [apply reset_to_defaults_store|]. split.
  - intros key v Hin. apply store_In; [exact DEFAULTS_NoDup|exact Hin].
  - intros key Hkey. now apply store_other.
Qed.

(** X11.  A second "Reset to Defaults" changes nothing: the session state
    after one reset is a fixed point of the reset. *)
Theorem reset_idempotent (session_state s' : dict num) :
  reset_to_defaults session_state = Ok s' ->
  reset_to_defaults s' = Ok s'.
Proof.
  intros Hs. rewrite reset_to_defaults_store in Hs.
  assert (Es : s' = store DEFAULTS session_state)
    by (injection Hs as Hs; now symmetry).
  rewrite reset_to_defaults_store, Es.
  f_equal. apply store_fixed. intros k v Hin.
  apply store_In; [exact DEFAULTS_NoDup|exact Hin].
Qed.
End Reset.

Lemma reset_idempotent_witness :
  exists s' : dict Q,
    reset_to_defaults [("sleep", 3); ("note", 1)] = Ok s'
    /\ reset_to_defaults s' = Ok s'
    /\ getitem s' "sleep" = Ok 8.5
    /\ getitem s' "note" = Ok 1.
Proof.
  eexists. split; [vm_compute; reflexivity|].
  split; [|split; reflexivity].
  apply (reset_idempotent [("sleep", 3); ("note", 1)]).
  vm_compute. reflexivity.
Defined.

(** ** The widget calls *)

(** The categories of the catalog that line 76 sends to a dropdown.  The
    fourth name of the list, "Religion", is no category of the catalog. *)
Definition dropdown_in_catalog : list string :=
  ["Education"; "Shopping/Errands"; "Miscellaneous Activities"].

Lemma activity_widget_slider
    (session_state : dict Q) (category key : string) (d : Q) :
  In (category, key) categories -> getitem DEFAULTS key = Ok d ->
  ~ In category dropdown_in_catalog ->
  activity_widget session_state category key
  = Ok (Slider 0.0 24.0 (session_get session_state key d) 0.25).
Proof.
  intros Hin Hd Hslider.
  repeat (destruct Hin as [Heq|Hin];
    [injection Heq as <- <-;
     first
       [ exfalso; apply Hslider; cbn; tauto
       | vm_compute in Hd; injection Hd as <-; reflexivity ]
    |]).
  contradiction.
Qed.

(** X12.  For every session state and every activity of the catalog the
    widget call succeeds (the key has a DEFAULTS value, between 0 and 24).
    Education, Shopping/Errands and Miscellaneous Activities get the
    dropdown, opened at an index inside its options that addresses the
    DEFAULTS value; every other activity, Religious and Civic Activities
    included, gets a slider from 0 to 24 in steps of 0.25 whose value is the
    session state's value for the key, or the DEFAULTS value when the
    session state has none. *)
Theorem activity_widget_calls
    (session_state : dict Q) (category key : string) :
  In (category, key) categories ->
  exists d,
    getitem DEFAULTS key = Ok d /\ 0 <= d <= 24
    /\ ((~ In category dropdown_in_catalog
         /\ activity_widget session_state category key
            = Ok (Slider 0.0 24.0 (session_get session_state key d) 0.25))
        \/ (In category dropdown_in_catalog
            /\ exists index option,
                 activity_widget session_state category key
                 = Ok (Selectbox dropdown_options index)
                 /\ (0 <= index)%Z
                 /\ nth_error dropdown_options (Z.to_nat index)
                    = Some option
                 /\ option == d)).
Proof.
  intros Hin.
  repeat (destruct Hin as [Heq|Hin];
    [injection Heq as <- <-; eexists; split; [reflexivity|];
     split; [split; by_computation|];
     first
       [ left; split;
         [intros Hc; repeat (destruct Hc as [Hc|Hc]; [discriminate|]);
          contradiction
         |reflexivity]
       | right; split; [cbn; tauto|];
         exists 1%Z, 0.25; split; [reflexivity|];
         split; [discriminate|]; split; reflexivity ]
    |]).
  contradiction.
Qed.

Lemma activity_widget_calls_witness :
  exists d,
    getitem DEFAULTS "religion" = Ok d /\ 0 <= d <= 24
    /\ ((~ In "Religious and Civic Activities" dropdown_in_catalog
         /\ activity_widget [("religion", 2)]
              "Religious and Civic Activities" "religion"
            = Ok (Slider 0.0 24.0
                    (session_get [("religion", 2)] "religion" d) 0.25))
        \/ (In "Religious and Civic Activities" dropdown_in_catalog
            /\ exists index option,
                 activity_widget [("religion", 2)]
                   "Religious and Civic Activities" "religion"
                 = Ok (Selectbox dropdown_options index)
                 /\ (0 <= index)%Z
                 /\ nth_error dropdown_options (Z.to_nat index)
                    = Some option
                 /\ option == d)).
Proof.
  apply (activity_widget_calls [("religion", 2)]
           "Religious and Civic Activities" "religion").
  cbn. tauto.
Defined.

(** X13.  After "Reset to Defaults" every slider of the catalog is called
    with the DEFAULTS value of its key as its value, as on a session state
    that holds nothing. *)
Theorem sliders_open_on_defaults_after_reset
    (session_state s' : dict Q) (category key : string) (d : Q) :
  reset_to_defaults session_state = Ok s' ->
  In (category, key) categories -> getitem DEFAULTS key = Ok d ->
  session_get s' key d = d
  /\ session_get [] key d = d
  /\ (~ In category dropdown_in_catalog ->
      activity_widget s' category key = Ok (Slider 0.0 24.0 d 0.25)
      /\ activity_widget [] category key = Ok (Slider 0.0 24.0 d 0.25)).
Proof.
  intros Hreset Hin Hd.
  destruct (reset_restores_defaults session_state) as [s [Hs [Hget _]]].
  rewrite Hreset in Hs. injection Hs as <-.
  assert (HinD : In (key, d) DEFAULTS).
  { clear - Hd. revert Hd. generalize DEFAULTS. intros t.
    induction t as [|[k v] t IH]; simpl; [discriminate|].
    destruct (String.eqb_spec k key) as [->|Hne].
    - intros Hv. injection Hv as ->. now left.
    - intros Hv. right. now apply IH. }
  assert (Hs' : session_get s' key d = d).
  { unfold session_get. now rewrite (Hget key d HinD). }
  split; [exact Hs'|]. split; [reflexivity|]. intros Hslider.
  rewrite (activity_widget_slider s' category key d Hin Hd Hslider).
  rewrite (activity_widget_slider [] category key d Hin Hd Hslider).
  now rewrite Hs'.
Qed.

Lemma sliders_open_on_defaults_after_reset_witness :
  exists s' : dict Q,
    reset_to_defaults [("sleep", 3)] = Ok s'
    /\ session_get s' "sleep" 8.5 = 8.5
    /\ activity_widget s' "Sleeping" "sleep" = Ok (Slider 0.0 24.0 8.5 0.25).
Proof.
  assert (Hreset : exists s' : dict Q,
            reset_to_defaults [("sleep", 3)] = Ok s').
  { eexists. vm_compute. reflexivity. }
  destruct Hreset as [s' Hreset]. exists s'. split; [exact Hreset|].
  destruct (sliders_open_on_defaults_after_reset
              [("sleep", 3)] s' "Sleeping" "sleep" 8.5 Hreset)
    as [Hget [_ Hcall]].
  - now left.
  - reflexivity.
  - split; [exact Hget|]. apply Hcall.
    intros Hc. repeat (destruct Hc as [Hc|Hc]; [discriminate|]).
    contradiction.
Defined.
